(** * CodeEditorUtils: language detection, metadata, text metrics, validation

    A shallow embedding of [src/domain/entities/CodeEditor.ts] of
    react-native-code-editor, and the properties its specification states
    about it.

    Conventions of the embedding.
    - A JavaScript string is a [string]: one [ascii] per code unit, so the
      strings covered are those whose code units lie in 0..255.
    - A JavaScript number that holds an integer is a [Z].  The two places
      where the source computes with fractions ([bytes / 1024] followed by
      [toFixed(1)], and [maxLength * 0.7]) are modelled exactly, see
      [JS.toFixed1] and [JS.times_0_7].
    - A property read [o[k]] on an object literal looks at the literal's own
      properties first and then at what every object inherits from
      [Object.prototype]. *)

From Stdlib Require Import ZArith List String Ascii Bool Lia DecimalString.
Import ListNotations.

#[local] Open Scope string_scope.
#[local] Open Scope Z_scope.

(* ================================================================== *)
(** * The JavaScript primitives the source relies on                   *)
(* ================================================================== *)

Module JS.

(** ** Strings *)

(** The line feed, written ['\n'] in the source. *)
Definition LF : ascii := "010"%char.
Definition DOT : ascii := "."%char.

(** [s.length] *)
Definition length (s : string) : Z := Z.of_nat (String.length s).

(** Lower-casing of one code unit in 0..255: the Basic Latin capitals and
    the Latin-1 capitals (U+00C0..U+00DE, the multiplication sign U+00D7
    apart) move up by 32, everything else is left alone. *)
Definition lower_unit (c : ascii) : ascii :=
  let n := N_of_ascii c in
  if ((65 <=? n) && (n <=? 90) ||
      (192 <=? n) && (n <=? 222) && negb (n =? 215))%N
  then ascii_of_N (n + 32) else c.

(** [s.toLowerCase()] *)
Fixpoint toLowerCase (s : string) : string :=
  match s with
  | EmptyString => EmptyString
  | String c r => String (lower_unit c) (toLowerCase r)
  end.

(** [s.split(sep)] for a separator of one code unit: the segments between
    the occurrences of [sep], never an empty array. *)
Fixpoint split (sep : ascii) (s : string) : list string :=
  match s with
  | EmptyString => [EmptyString]
  | String c r =>
      if Ascii.eqb c sep then EmptyString :: split sep r
      else match split sep r with
           | seg :: segs => String c seg :: segs
           | [] => [String c EmptyString]
           end
  end.

(** [a.pop()]: the last element, [undefined] (here [None]) on an empty
    array. *)
Fixpoint pop (a : list string) : option string :=
  match a with
  | [] => None
  | [x] => Some x
  | _ :: r => pop r
  end.

(** [a.join(sep)] *)
Fixpoint join (sep : string) (a : list string) : string :=
  match a with
  | [] => EmptyString
  | [x] => x
  | x :: r => x ++ sep ++ join sep r
  end.

(** [a.slice(start, end)]: a negative index counts from the end, and both
    indices are clamped to the array. *)
Definition slice {A : Type} (a : list A) (start end_ : Z) : list A :=
  let len := Z.of_nat (List.length a) in
  let rel i := if i <? 0 then Z.max (len + i) 0 else Z.min i len in
  let k := rel start in
  let final := rel end_ in
  firstn (Z.to_nat (Z.max (final - k) 0)) (skipn (Z.to_nat k) a).

(** [s.substring(start, end)]: both indices are clamped to [0, s.length]
    and swapped when out of order. *)
Definition substring (s : string) (start end_ : Z) : string :=
  let len := length s in
  let clamp i := Z.min (Z.max i 0) len in
  let from := Z.min (clamp start) (clamp end_) in
  let to := Z.max (clamp start) (clamp end_) in
  String.substring (Z.to_nat from) (Z.to_nat (to - from)) s.

(** [s.lastIndexOf(c)] for one code unit [c]: the offset of its last
    occurrence, [-1] when there is none.  [scan_last] walks the string
    once, [i] being the offset of the head and [found] the last hit so
    far. *)
Fixpoint scan_last (c : ascii) (s : string) (i found : Z) : Z :=
  match s with
  | EmptyString => found
  | String d r => scan_last c r (i + 1) (if Ascii.eqb d c then i else found)
  end.

Definition lastIndexOf (s : string) (c : ascii) : Z := scan_last c s 0 (-1).

(** The code units in 0..255 that [trim] removes: TAB, LF, VT, FF, CR,
    SPACE and NO-BREAK SPACE. *)
Definition is_white_space (c : ascii) : bool :=
  let n := N_of_ascii c in
  ((9 <=? n) && (n <=? 13) || (n =? 32) || (n =? 160))%N.

Fixpoint trimStart (s : string) : string :=
  match s with
  | EmptyString => EmptyString
  | String c r => if is_white_space c then trimStart r else s
  end.

Fixpoint trimEnd (s : string) : string :=
  match s with
  | EmptyString => EmptyString
  | String c r =>
      match trimEnd r with
      | EmptyString => if is_white_space c then EmptyString
                       else String c EmptyString
      | r' => String c r'
      end
  end.

(** [s.trim()] *)
Definition trim (s : string) : string := trimEnd (trimStart s).

(** [x || d] and [!x] where [x] is a string or [undefined]: the empty
    string and [undefined] are the falsy ones. *)
Definition truthy_string (x : option string) : bool :=
  match x with
  | Some (String _ _) => true
  | _ => false
  end.

Definition or_string (x : option string) (d : string) : string :=
  match x with
  | Some (String _ _ as s) => s
  | _ => d
  end.

(** ** Numbers *)

(** The decimal numeral of an integer, as [String(n)] and template
    literals print it below 10^21. *)
Definition toString (n : Z) : string := NilZero.string_of_int (Z.to_int n).

(** The binary64 values from 10^21 on are integers [m * 2^e] with
    [2^52 <= m < 2^53].  [rounds_to x v]: the integer [v], read as a
    number, is the binary64 value [x]; that is, [v] lies between the
    midpoints from [x] to its two neighbours, the midpoints included when
    [m] is even. *)
Definition rounds_to (x v : Z) : bool :=
  let e := Z.log2 x - 52 in
  let m := x / 2 ^ e in
  let above := 2 ^ (e - 1) in
  let below := if m =? 2 ^ 52 then 2 ^ (e - 2) else 2 ^ (e - 1) in
  if Z.even m
  then (x - below <=? v) && (v <=? x + above)
  else (x - below <? v) && (v <? x + above).

(** The decimal [String(x)] prints for such an [x] of [k] digits: the
    one of fewest significant digits [n] that is read back as [x], the
    closest to [x] if there are two, the even one on a tie.  17 digits
    always do. *)
Fixpoint shortest_decimal (x k : Z) (tries : nat) (n : Z) : Z :=
  match tries with
  | O => x
  | S tries' =>
      let scale := 10 ^ (k - n) in
      let s := x / scale in
      let lo := s * scale in
      let hi := lo + scale in
      match rounds_to x lo, rounds_to x hi with
      | true, true =>
          if x - lo <? hi - x then lo
          else if hi - x <? x - lo then hi
          else if Z.even s then lo else hi
      | true, false => lo
      | false, true => hi
      | false, false => shortest_decimal x k tries' (n + 1)
      end
  end.

(** A numeral without its final zeros. *)
Fixpoint drop_zeros (s : string) : string :=
  match s with
  | EmptyString => EmptyString
  | String d r =>
      match drop_zeros r with
      | EmptyString =>
          if Ascii.eqb d "0" then EmptyString else String d EmptyString
      | r' => String d r'
      end
  end.

(** [String(x)] for a binary64 integer [x >= 10^21]: the digits of the
    shortest decimal, a point after the first when there are more, and
    the exponent. *)
Definition toString_large (x : Z) : string :=
  let v := shortest_decimal x (length (toString x)) 17 1 in
  let exponent := length (toString v) - 1 in
  match drop_zeros (toString v) with
  | EmptyString => EmptyString
  | String d EmptyString => String d "e+" ++ toString exponent
  | String d r => String d ("." ++ r) ++ "e+" ++ toString exponent
  end.

(** [(num / den).toFixed(1)] for a positive quotient [num / den] that the
    division computes without rounding, which is the case in binary64
    when [num] is a binary64 integer and [den] a power of two.  From
    10^21 on, [toFixed] answers [String] of the quotient.  Below,
    [toFixed(1)] takes the integer [n] for which [n / 10] is closest to the
    quotient, the larger one on a tie, and prints it with one digit after
    the point. *)
Definition toFixed1 (num den : Z) : string :=
  if 10 ^ 21 * den <=? num then toString_large (num / den)
  else
    let n := (2 * 10 * num + den) / (2 * den) in
    toString (n / 10) ++ "." ++ toString (n mod 10).

(** The binary64 constant [0.7] is [mantissa_0_7 * 2^-53]. *)
Definition mantissa_0_7 : Z := 6305039478318694.

(** Rounding to binary64 of a non-negative multiple [N] of 2^-53 (so [N]
    counts units of 2^-53): keep 53 significant bits, to nearest, ties to
    the even mantissa.  The result is again in units of 2^-53. *)
Definition round_binary64 (N : Z) : Z :=
  let s := Z.max 0 (Z.log2 N - 52) in
  if s =? 0 then N
  else
    let q := N / 2 ^ s in
    let r := N mod 2 ^ s in
    let half := 2 ^ (s - 1) in
    let q' := if (half <? r) || ((r =? half) && Z.odd q) then q + 1 else q in
    q' * 2 ^ s.

(** [m * 0.7] in binary64, for an integer [m] of magnitude below 2^53, in
    units of 2^-53: the exact product, rounded; rounding to nearest is
    symmetric about zero. *)
Definition times_0_7 (m : Z) : Z :=
  Z.sgn m * round_binary64 (Z.abs m * mantissa_0_7).

(** [p > m * 0.7] for integers [p] and [m]. *)
Definition gt_times_0_7 (p m : Z) : bool := times_0_7 m <? p * 2 ^ 53.

(** ** Objects *)

(** The three properties the source reads from a row of [LANGUAGE_INFO]. *)
Inductive field := f_name | f_extension | f_icon.

Record LanguageInfo := {
  name : string;
  extension : string;
  icon : string
}.

(** The values a property read of the source can produce. *)
Inductive value :=
| VUndefined
| VString (s : string)
| VInfo (row : LanguageInfo)
| VFunction (fname : string)   (* a built-in function and its [name] *)
| VObjectPrototype.            (* [Object.prototype] itself *)

(** What every object literal inherits: the properties of
    [Object.prototype].  Each method is a function whose [name] is its
    key; [constructor] is the function [Object]; [__proto__] reads the
    prototype of the object, which is [Object.prototype]. *)
Definition inherited_methods : list string :=
  [ "hasOwnProperty"; "isPrototypeOf"; "propertyIsEnumerable";
    "toLocaleString"; "toString"; "valueOf";
    "__defineGetter__"; "__defineSetter__";
    "__lookupGetter__"; "__lookupSetter__" ].

Definition Object_prototype (k : string) : value :=
  if String.eqb k "constructor" then VFunction "Object"
  else if String.eqb k "__proto__" then VObjectPrototype
  else if existsb (String.eqb k) inherited_methods then VFunction k
  else VUndefined.

(** The own property [k] of an object literal given by its rows. *)
Fixpoint own {A : Type} (o : list (string * A)) (k : string) : option A :=
  match o with
  | [] => None
  | (k', v) :: r => if String.eqb k k' then Some v else own r k
  end.

(** [o[k]]: own properties first, then the inherited ones. *)
Definition get {A : Type} (inj : A -> value) (o : list (string * A))
    (k : string) : value :=
  match own o k with
  | Some v => inj v
  | None => Object_prototype k
  end.

(** A property read either yields a value or throws a [TypeError]. *)
Inductive completion :=
| Normal (v : value)
| Throw.

(** [v.f] for [f] one of [name], [extension], [icon]: a [TypeError] on
    [undefined]; a row has the three; a function has a [name] only;
    strings and [Object.prototype] have none of them. *)
Definition member (v : value) (f : field) : completion :=
  match v with
  | VUndefined => Throw
  | VInfo row =>
      Normal (VString match f with
                      | f_name => name row
                      | f_extension => extension row
                      | f_icon => icon row
                      end)
  | VFunction n =>
      match f with
      | f_name => Normal (VString n)
      | _ => Normal VUndefined
      end
  | VString _ | VObjectPrototype => Normal VUndefined
  end.

(** [v?.f]: [undefined] without a read when [v] is [undefined]. *)
Definition opt_member (v : value) (f : field) : completion :=
  match v with
  | VUndefined => Normal VUndefined
  | _ => member v f
  end.

Definition truthy (v : value) : bool :=
  match v with
  | VUndefined | VString EmptyString => false
  | _ => true
  end.

(** [a || b] *)
Definition or (a b : value) : value := if truthy a then a else b.

(** Sequencing of a read that may throw. *)
Definition bind (c : completion) (k : value -> completion) : completion :=
  match c with
  | Normal v => k v
  | Throw => Throw
  end.

End JS.

Notation "x <- c ;; k" := (JS.bind c (fun x => k))
  (at level 61, c at next level, right associativity).

(* ================================================================== *)
(** * Types and constants of the module                                *)
(* ================================================================== *)

(** The closed union [ProgrammingLanguage] and the string each label is at
    run time.  The labels live in a module of their own: several are short
    words ([c], [go], [java]). *)
Module Lang.

Inductive ProgrammingLanguage :=
| typescript | javascript | python | java | csharp | cpp | c | swift
| kotlin | go | rust | php | ruby | html | css | scss | json | xml | yaml
| markdown | sql | bash | shell | dockerfile | plaintext.

Definition all_languages : list ProgrammingLanguage :=
  [ typescript; javascript; python; java; csharp; cpp; c; swift;
    kotlin; go; rust; php; ruby; html; css; scss; json; xml; yaml;
    markdown; sql; bash; shell; dockerfile; plaintext ].

Definition label (l : ProgrammingLanguage) : string :=
  match l with
  | typescript => "typescript" | javascript => "javascript"
  | python => "python" | java => "java" | csharp => "csharp"
  | cpp => "cpp" | c => "c" | swift => "swift" | kotlin => "kotlin"
  | go => "go" | rust => "rust" | php => "php" | ruby => "ruby"
  | html => "html" | css => "css" | scss => "scss" | json => "json"
  | xml => "xml" | yaml => "yaml" | markdown => "markdown" | sql => "sql"
  | bash => "bash" | shell => "shell" | dockerfile => "dockerfile"
  | plaintext => "plaintext"
  end.

End Lang.

(** A string is a Language Identity when it is one of the 25 labels. *)
Definition is_language (s : string) : bool :=
  existsb (fun l => String.eqb s (Lang.label l)) Lang.all_languages.

(** [Partial<CodeSnippet>]: every property may be absent.  Dates are
    milliseconds since the epoch. *)
Record PartialCodeSnippet := {
  id : option string;
  title : option string;
  description : option string;
  code : option string;
  language : option string;
  category : option string;
  tags : option (list string);
  isFavorite : option bool;
  createdAt : option Z;
  updatedAt : option Z;
  usageCount : option Z
}.

(** The object literal [{}]. *)
Definition empty_snippet : PartialCodeSnippet :=
  {| id := None; title := None; description := None; code := None;
     language := None; category := None; tags := None; isFavorite := None;
     createdAt := None; updatedAt := None; usageCount := None |}.

(** The object literal [{ title: t, code: c }]. *)
Definition titled_snippet (t c : string) : PartialCodeSnippet :=
  {| id := None; title := Some t; description := None; code := Some c;
     language := None; category := None; tags := None; isFavorite := None;
     createdAt := None; updatedAt := None; usageCount := None |}.

(** The result of [validateSnippet]. *)
Record Validation := {
  valid : bool;
  errors : list string
}.

Definition info (n e i : string) : JS.LanguageInfo :=
  {| JS.name := n; JS.extension := e; JS.icon := i |}.

Definition LANGUAGE_INFO : list (string * JS.LanguageInfo) :=
  [ ("typescript", info "TypeScript" ".ts" "FileCode");
    ("javascript", info "JavaScript" ".js" "FileCode");
    ("python", info "Python" ".py" "FileCode");
    ("java", info "Java" ".java" "FileCode");
    ("csharp", info "C#" ".cs" "FileCode");
    ("cpp", info "C++" ".cpp" "FileCode");
    ("c", info "C" ".c" "FileCode");
    ("swift", info "Swift" ".swift" "FileCode");
    ("kotlin", info "Kotlin" ".kt" "FileCode");
    ("go", info "Go" ".go" "FileCode");
    ("rust", info "Rust" ".rs" "FileCode");
    ("php", info "PHP" ".php" "FileCode");
    ("ruby", info "Ruby" ".rb" "FileCode");
    ("html", info "HTML" ".html" "FileCode");
    ("css", info "CSS" ".css" "FileCode");
    ("scss", info "SCSS" ".scss" "FileCode");
    ("json", info "JSON" ".json" "Braces");
    ("xml", info "XML" ".xml" "FileCode");
    ("yaml", info "YAML" ".yaml" "FileCode");
    ("markdown", info "Markdown" ".md" "FileText");
    ("sql", info "SQL" ".sql" "Database");
    ("bash", info "Bash" ".sh" "Terminal");
    ("shell", info "Shell" ".sh" "Terminal");
    ("dockerfile", info "Dockerfile" "Dockerfile" "Box");
    ("plaintext", info "Plain Text" ".txt" "FileText") ].

Module CODE_EDITOR_CONSTANTS.
Definition MIN_FONT_SIZE : Z := 10.
Definition MAX_FONT_SIZE : Z := 24.
Definition DEFAULT_FONT_SIZE : Z := 14.
Definition MIN_TAB_SIZE : Z := 2.
Definition MAX_TAB_SIZE : Z := 8.
Definition DEFAULT_TAB_SIZE : Z := 2.
Definition MAX_CODE_LENGTH : Z := 50000.
Definition PREVIEW_LENGTH : Z := 150.
End CODE_EDITOR_CONSTANTS.

(* ================================================================== *)
(** * CodeEditorUtils                                                  *)
(* ================================================================== *)

Module CodeEditorUtils.
Import CODE_EDITOR_CONSTANTS.

(** The object literal [languageMap] of [detectLanguage]. *)
Definition languageMap : list (string * string) :=
  [ ("ts", "typescript"); ("tsx", "typescript");
    ("js", "javascript"); ("jsx", "javascript");
    ("py", "python"); ("java", "java"); ("cs", "csharp");
    ("cpp", "cpp"); ("cc", "cpp"); ("c", "c"); ("h", "c");
    ("swift", "swift"); ("kt", "kotlin"); ("go", "go"); ("rs", "rust");
    ("php", "php"); ("rb", "ruby"); ("html", "html"); ("htm", "html");
    ("css", "css"); ("scss", "scss"); ("sass", "scss"); ("json", "json");
    ("xml", "xml"); ("yaml", "yaml"); ("yml", "yaml"); ("md", "markdown");
    ("sql", "sql"); ("sh", "bash"); ("bash", "bash");
    ("dockerfile", "dockerfile"); ("txt", "plaintext") ].

(** [detectLanguage(filename)].  The declared result is a
    [ProgrammingLanguage]; what the body returns is whatever
    [languageMap[ext] || 'plaintext'] evaluates to. *)
Definition detectLanguage (filename : string) : JS.value :=
  let ext :=
    JS.or_string (JS.pop (JS.split JS.DOT (JS.toLowerCase filename))) "" in
  JS.or (JS.get JS.VString languageMap ext) (JS.VString "plaintext").

(** [formatForDisplay(code, maxLength = PREVIEW_LENGTH)]; [None] is the
    omitted argument, and a given [maxLength] is an integer. *)
Definition formatForDisplay (code : string) (maxLength_arg : option Z)
    : string :=
  let maxLength :=
    match maxLength_arg with Some m => m | None => PREVIEW_LENGTH end in
  if JS.length code <=? maxLength then code
  else
    let truncated := JS.substring code 0 maxLength in
    let lastNewline := JS.lastIndexOf truncated JS.LF in
    if JS.gt_times_0_7 lastNewline maxLength
    then JS.substring truncated 0 lastNewline ++ String JS.LF "..."
    else truncated ++ "...".

(** [countLines(code)] *)
Definition countLines (code : string) : Z :=
  if negb (JS.truthy_string (Some code)) then 0
  else Z.of_nat (List.length (JS.split JS.LF code)).

(** [countCharacters(code)] *)
Definition countCharacters (code : string) : Z := JS.length code.

(** [isValidLength(code)] *)
Definition isValidLength (code : string) : bool :=
  JS.length code <=? MAX_CODE_LENGTH.

(** [getLanguageIcon(language)] *)
Definition getLanguageIcon (language : string) : JS.completion :=
  v <- JS.opt_member (JS.get JS.VInfo LANGUAGE_INFO language) JS.f_icon ;;
  JS.Normal (JS.or v (JS.VString "FileCode")).

(** [getLanguageName(language)] *)
Definition getLanguageName (language : string) : JS.completion :=
  v <- JS.opt_member (JS.get JS.VInfo LANGUAGE_INFO language) JS.f_name ;;
  JS.Normal (JS.or v (JS.VString language)).

(** [getFileExtension(language)] *)
Definition getFileExtension (language : string) : JS.completion :=
  v <- JS.opt_member (JS.get JS.VInfo LANGUAGE_INFO language)
         JS.f_extension ;;
  JS.Normal (JS.or v (JS.VString ".txt")).

(** [getCodePreview(code, lines = 3)]; [None] is the omitted argument. *)
Definition getCodePreview (code : string) (lines_arg : option Z) : string :=
  let lines := match lines_arg with Some n => n | None => 3 end in
  let codeLines := JS.split JS.LF code in
  let preview := JS.join (String JS.LF "") (JS.slice codeLines 0 lines) in
  if lines <? Z.of_nat (List.length codeLines)
  then preview ++ String JS.LF "..."
  else preview.

(** [formatFileSize(bytes)] for a binary64 integer [bytes]. *)
Definition formatFileSize (bytes : Z) : string :=
  if bytes <? 1024 then JS.toString bytes ++ " B"
  else if bytes <? 1024 * 1024 then JS.toFixed1 bytes 1024 ++ " KB"
  else JS.toFixed1 bytes (1024 * 1024) ++ " MB".

(** [errors.push(e)] *)
Definition push (errors : list string) (e : string) : list string :=
  errors ++ [e].

(** [validateSnippet(snippet)]: the three [if]s in sequence, each one
    pushing on the array the previous ones left. *)
Definition validateSnippet (snippet : PartialCodeSnippet) : Validation :=
  let errors0 : list string := [] in
  let errors1 :=
    if negb (JS.truthy_string (option_map JS.trim (title snippet)))
    then push errors0 "Title is required" else errors0 in
  let errors2 :=
    if negb (JS.truthy_string (option_map JS.trim (code snippet)))
    then push errors1 "Code is required" else errors1 in
  let errors3 :=
    if match code snippet with
       | Some c => JS.truthy_string (Some c) && negb (isValidLength c)
       | None => false
       end
    then push errors2
           ("Code exceeds maximum length of " ++
            formatFileSize MAX_CODE_LENGTH)
    else errors2 in
  {| valid := (Z.of_nat (List.length errors3) =? 0); errors := errors3 |}.

End CodeEditorUtils.

(* ================================================================== *)
(** * The components that call CodeEditorUtils                         *)
(* ================================================================== *)

(** What [CodeBlock] computes from its [code] prop before it lays anything
    out: the lines, one row per line, and the two texts of the footer. *)
Module CodeBlock.

(** [const lines = code.split('\n')] *)
Definition lines (code : string) : list string := JS.split JS.LF code.

(** [const lineCount = lines.length] *)
Definition lineCount (code : string) : Z :=
  Z.of_nat (List.length (lines code)).

(** [lines.map((line, index) => ...)]: a row shows [index + 1] when
    [showLineNumbers] holds, and the text [line || ' ']. *)
Fixpoint rows_from (showLineNumbers : bool) (index : Z) (ls : list string)
    : list (option Z * string) :=
  match ls with
  | [] => []
  | line :: rest =>
      (if showLineNumbers then Some (index + 1) else None,
       JS.or_string (Some line) " ")
      :: rows_from showLineNumbers (index + 1) rest
  end.

Definition rows (code : string) (showLineNumbers : bool)
    : list (option Z * string) :=
  rows_from showLineNumbers 0 (lines code).

(** The footer: [{lineCount} {lineCount === 1 ? 'line' : 'lines'}] and
    [formatFileSize(code.length)]. *)
Definition footerLines (code : string) : string :=
  JS.toString (lineCount code) ++ " " ++
  (if lineCount code =? 1 then "line" else "lines").

Definition footerSize (code : string) : string :=
  CodeEditorUtils.formatFileSize (JS.length code).

End CodeBlock.

(** What [CodeInput] computes from its [value] prop. *)
Module CodeInput.

(** [const lineCount = value.split('\n').length] *)
Definition lineCount (value : string) : Z :=
  Z.of_nat (List.length (JS.split JS.LF value)).

(** The gutter:
    [Array.from({ length: Math.max(lineCount, 10) }, (_, i) => i + 1)]. *)
Definition lineNumbers (value : string) : list Z :=
  map (fun i => Z.of_nat i + 1)
      (seq 0 (Z.to_nat (Z.max (lineCount value) 10))).

(** The footer: [{value.length} characters]. *)
Definition footerCharacters (value : string) : string :=
  JS.toString (JS.length value) ++ " characters".

End CodeInput.

Import CodeEditorUtils.
Import CODE_EDITOR_CONSTANTS.

(* ================================================================== *)
(** * Vocabulary of the specification                                  *)
(* ================================================================== *)

(** The string ["\n"]. *)
Definition NL : string := String JS.LF EmptyString.

(** [s] contains the code unit [c]. *)
Fixpoint includes (s : string) (c : ascii) : bool :=
  match s with
  | EmptyString => false
  | String d r => Ascii.eqb d c || includes r c
  end.

(** The number of occurrences of [c] in [s]. *)
Fixpoint occurrences (c : ascii) (s : string) : Z :=
  match s with
  | EmptyString => 0
  | String d r => (if Ascii.eqb d c then 1 else 0) + occurrences c r
  end.

(** Upper-casing of a string of ASCII code units: the letters a..z become
    A..Z.  Above code unit 127 JavaScript's [toUpperCase] does more (it
    turns U+00DF into two letters and leaves Latin-1 with U+00B5 and
    U+00FF); the definition is for the strings that [ascii_only] accepts,
    the extension tokens of [languageMap] among them. *)
Definition upper_unit (c : ascii) : ascii :=
  let n := N_of_ascii c in
  if ((97 <=? n) && (n <=? 122))%N then ascii_of_N (n - 32) else c.

Fixpoint toUpperCase (s : string) : string :=
  match s with
  | EmptyString => EmptyString
  | String c r => String (upper_unit c) (toUpperCase r)
  end.

(** All code units are ASCII, below 128. *)
Fixpoint ascii_only (s : string) : bool :=
  match s with
  | EmptyString => true
  | String u r => (N_of_ascii u <? 128)%N && ascii_only r
  end.

(** A string is blank when [trim] leaves nothing of it: all its code units
    are white space. *)
Fixpoint blank (s : string) : bool :=
  match s with
  | EmptyString => true
  | String c r => JS.is_white_space c && blank r
  end.

(** [n] copies of the code unit [c]. *)
Fixpoint replicate (n : nat) (c : ascii) : string :=
  match n with
  | O => EmptyString
  | S k => String c (replicate k c)
  end.

(** The first [n] code units of [s]. *)
Fixpoint take (n : nat) (s : string) : string :=
  match n, s with
  | S k, String c r => String c (take k r)
  | _, _ => EmptyString
  end.

(** The three checks of the validation engine, each one on its own. *)
Definition title_check (snippet : PartialCodeSnippet) : list string :=
  match title snippet with
  | Some t => if blank t then ["Title is required"] else []
  | None => ["Title is required"]
  end.

Definition code_check (snippet : PartialCodeSnippet) : list string :=
  match code snippet with
  | Some c => if blank c then ["Code is required"] else []
  | None => ["Code is required"]
  end.

Definition length_check (snippet : PartialCodeSnippet) : list string :=
  match code snippet with
  | Some c =>
      if MAX_CODE_LENGTH <? JS.length c
      then ["Code exceeds maximum length of 48.8 KB"] else []
  | None => []
  end.

(** [s] prints, with one digit after the point, a tenth [n / 10] that is
    as close to [num / den] as a tenth can be. *)
Definition rounded_to_one_decimal (num den : Z) (s : string) : Prop :=
  exists n : Z,
    0 <= n /\
    2 * Z.abs (10 * num - n * den) <= den /\
    s = JS.toString (n / 10) ++ "." ++ JS.toString (n mod 10).

(** [formatForDisplay] as the specification words it: the threshold is
    70% of [maxLength], taken exactly. *)
Definition formatForDisplay_spec (code : string) (maxLength : Z) : string :=
  if JS.length code <=? maxLength then code
  else
    let t := take (Z.to_nat maxLength) code in
    let p := JS.lastIndexOf t JS.LF in
    if 7 * maxLength <? 10 * p
    then take (Z.to_nat p) code ++ String JS.LF "..."
    else t ++ "...".

(** A text of 94 code units whose only line feed is at offset 63. *)
Definition line_of_63 : string :=
  replicate 63 "a" ++ NL ++ replicate 30 "b".

(** No engine holds a string of this many code units. *)
Definition STRING_LENGTH_LIMIT : Z := 2 ^ 32.

(* ================================================================== *)
(** * Language detection                                               *)
(* ================================================================== *)

Section Detection.

Lemma lower_unit_dot (u : ascii) :
  Ascii.eqb (JS.lower_unit u) JS.DOT = Ascii.eqb u JS.DOT.
Proof. destruct u as [[] [] [] [] [] [] [] []]; reflexivity. Qed.

Lemma includes_toLowerCase (s : string) :
  includes (JS.toLowerCase s) JS.DOT = includes s JS.DOT.
Proof.
  induction s as [|u r IH]; simpl; [reflexivity|].
  now rewrite lower_unit_dot, IH.
Qed.

Lemma split_without_separator (sep : ascii) (s : string) :
  includes s sep = false -> JS.split sep s = [s].
Proof.
  induction s as [|u r IH]; simpl; [reflexivity|].
  intros H. apply orb_false_iff in H as [Hu Hr].
  now rewrite Hu, (IH Hr).
Qed.

Lemma or_string_empty (s : string) : JS.or_string (Some s) "" = s.
Proof. now destruct s. Qed.

(** Without a dot the extension token is the whole lower-cased name. *)
Lemma detectLanguage_without_dot (filename : string) :
  includes filename JS.DOT = false ->
  detectLanguage filename =
  JS.or (JS.get JS.VString languageMap (JS.toLowerCase filename))
        (JS.VString "plaintext").
Proof.
  intros H. unfold detectLanguage.
  rewrite split_without_separator by now rewrite includes_toLowerCase.
  cbn [JS.pop]. now rewrite or_string_empty.
Qed.

(** No language of [languageMap] is the empty string. *)
Lemma languageMap_values (k L : string) :
  JS.own languageMap k = Some L -> JS.truthy (JS.VString L) = true.
Proof.
  unfold languageMap; cbn [JS.own].
  repeat match goal with
         | |- context [String.eqb k ?x] =>
             destruct (String.eqb k x); [intros [= <-]; reflexivity|]
         end.
  discriminate.
Qed.

End Detection.

(** C1, as the code has it.  A file name without a dot is its own
    extension token: [split] returns the whole lower-cased name as the only
    segment.  When that token is not a property every object inherits,
    [detectLanguage] returns the language [languageMap] has for it and
    ['plaintext'] when it has none; ["no_extension"] and the empty name are
    of the second kind. *)
Theorem detectLanguage_no_dot (filename : string)
    (Hdot : includes filename JS.DOT = false)
    (Hown : JS.Object_prototype (JS.toLowerCase filename) = JS.VUndefined) :
  JS.or_string (JS.pop (JS.split JS.DOT (JS.toLowerCase filename))) ""
    = JS.toLowerCase filename /\
  detectLanguage filename =
    JS.VString match JS.own languageMap (JS.toLowerCase filename) with
               | Some L => L
               | None => "plaintext"
               end /\
  detectLanguage "no_extension" = JS.VString "plaintext" /\
  detectLanguage "" = JS.VString "plaintext".
Proof.
  split; [|split; [|split; reflexivity]].
  - rewrite split_without_separator by now rewrite includes_toLowerCase.
    apply or_string_empty.
  - rewrite detectLanguage_without_dot by assumption.
    unfold JS.get.
    destruct (JS.own languageMap (JS.toLowerCase filename)) as [L|] eqn:E.
    + unfold JS.or. now rewrite (languageMap_values _ _ E).
    + now rewrite Hown.
Qed.

Lemma detectLanguage_no_dot_witness :
  detectLanguage "Makefile" = JS.VString "plaintext".
Proof.
  refine (proj1 (proj2 (detectLanguage_no_dot "Makefile" _ _)));
    reflexivity.
Defined.

(** C1 as stated fails: ["Dockerfile"] has no dot and is not classified as
    plain text, because its extension token is ["dockerfile"], not the
    empty string. *)
Lemma detectLanguage_no_dot_counterexample :
  includes "Dockerfile" JS.DOT = false /\
  JS.or_string (JS.pop (JS.split JS.DOT (JS.toLowerCase "Dockerfile"))) ""
    = "dockerfile" /\
  detectLanguage "Dockerfile" = JS.VString "dockerfile" /\
  detectLanguage "Dockerfile" <> JS.VString "plaintext".
Proof. repeat split; [reflexivity..|discriminate]. Qed.

(** C9.  Every extension token [e] of [languageMap], with language [L], is
    detected after ["file."] and, upper-cased, after ["FILE."]. *)
Theorem detectLanguage_case_insensitive (e L : string)
    (He : JS.own languageMap e = Some L) :
  detectLanguage ("file." ++ e) = JS.VString L /\
  detectLanguage ("FILE." ++ toUpperCase e) = JS.VString L.
Proof.
  revert He. unfold languageMap; cbn [JS.own].
  repeat match goal with
         | |- context [String.eqb e ?x] =>
             destruct (String.eqb_spec e x);
             [subst e; intros [= <-]; split; reflexivity|]
         end.
  discriminate.
Qed.

Lemma detectLanguage_case_insensitive_witness :
  detectLanguage "file.yml" = JS.VString "yaml" /\
  detectLanguage "FILE.YML" = JS.VString "yaml".
Proof.
  apply (detectLanguage_case_insensitive "yml" "yaml"). reflexivity.
Defined.

(* ================================================================== *)
(** * Language metadata                                                *)
(* ================================================================== *)

Section Metadata.

(** The own properties of [LANGUAGE_INFO] are the 25 labels. *)
Lemma LANGUAGE_INFO_own (s : string) :
  is_language s = false -> JS.own LANGUAGE_INFO s = None.
Proof.
  unfold is_language, LANGUAGE_INFO.
  cbn [existsb Lang.all_languages Lang.label JS.own].
  repeat match goal with
         | |- context [String.eqb s ?x] =>
             destruct (String.eqb s x); [discriminate|]
         end.
  reflexivity.
Qed.

(** A read of [f] through [?.] on what an object literal inherits. *)
Lemma inherited_member (s : string) (f : JS.field) :
  JS.opt_member (JS.Object_prototype s) f =
  JS.Normal match f with
            | JS.f_name =>
                match JS.Object_prototype s with
                | JS.VFunction n => JS.VString n
                | _ => JS.VUndefined
                end
            | _ => JS.VUndefined
            end.
Proof.
  unfold JS.Object_prototype.
  destruct (String.eqb s "constructor"); [now destruct f|].
  destruct (String.eqb s "__proto__"); [now destruct f|].
  now destruct (existsb (String.eqb s) JS.inherited_methods), f.
Qed.

Lemma or_same (v : JS.value) : JS.or v v = v.
Proof. unfold JS.or. now destruct (JS.truthy v). Qed.

Lemma or_strings (a b : string) :
  exists r, JS.or (JS.VString a) (JS.VString b) = JS.VString r.
Proof. destruct a; cbn; eauto. Qed.

(** Each accessor returns a string, whatever string it is given. *)
Lemma accessor_total (s : string) (f : JS.field) (d : string) :
  exists r,
    (v <- JS.opt_member (JS.get JS.VInfo LANGUAGE_INFO s) f ;;
     JS.Normal (JS.or v (JS.VString d))) = JS.Normal (JS.VString r).
Proof.
  unfold JS.get. destruct (JS.own LANGUAGE_INFO s) as [row|].
  - cbn. destruct (or_strings
                     match f with
                     | JS.f_name => JS.name row
                     | JS.f_extension => JS.extension row
                     | JS.f_icon => JS.icon row
                     end d) as [r ->]. eauto.
  - rewrite inherited_member. cbn [JS.bind].
    destruct f; [destruct (JS.Object_prototype s)|..];
      try (cbn; eauto); destruct (or_strings fname d) as [r ->]; eauto.
Qed.

End Metadata.

(** X20.  The three accessors return a string for every string they are
    given; on each of the 25 labels that string is not empty; on a string
    [raw] that is none of the labels the icon is ["FileCode"], the
    extension is [".txt"], and the name is [raw] itself unless [raw] is
    ["constructor"]. *)
Theorem metadata_accessors (s raw : string) (L : Lang.ProgrammingLanguage)
    (Hraw : is_language raw = false) :
  (exists n i e,
     getLanguageName s = JS.Normal (JS.VString n) /\
     getLanguageIcon s = JS.Normal (JS.VString i) /\
     getFileExtension s = JS.Normal (JS.VString e)) /\
  (exists n i e,
     getLanguageName (Lang.label L) = JS.Normal (JS.VString n) /\
     getLanguageIcon (Lang.label L) = JS.Normal (JS.VString i) /\
     getFileExtension (Lang.label L) = JS.Normal (JS.VString e) /\
     n <> "" /\ i <> "" /\ e <> "") /\
  getLanguageIcon raw = JS.Normal (JS.VString "FileCode") /\
  getFileExtension raw = JS.Normal (JS.VString ".txt") /\
  (raw <> "constructor" ->
   getLanguageName raw = JS.Normal (JS.VString raw)).
Proof.
  split; [|split; [|split; [|split]]].
  - destruct (accessor_total s JS.f_name s) as [n Hn].
    destruct (accessor_total s JS.f_icon "FileCode") as [i Hi].
    destruct (accessor_total s JS.f_extension ".txt") as [e He].
    exists n, i, e. auto.
  - destruct L; do 3 eexists;
      (split; [reflexivity|split; [reflexivity|split; [reflexivity|]]]);
      repeat split; discriminate.
  - unfold getLanguageIcon, JS.get.
    now rewrite (LANGUAGE_INFO_own _ Hraw), inherited_member.
  - unfold getFileExtension, JS.get.
    now rewrite (LANGUAGE_INFO_own _ Hraw), inherited_member.
  - intros Hne. unfold getLanguageName, JS.get.
    rewrite (LANGUAGE_INFO_own _ Hraw), inherited_member. cbn [JS.bind].
    unfold JS.Object_prototype.
    destruct (String.eqb_spec raw "constructor") as [|_]; [contradiction|].
    destruct (String.eqb raw "__proto__"); [now destruct raw|].
    destruct (existsb (String.eqb raw) JS.inherited_methods).
    + now rewrite or_same.
    + now destruct raw.
Qed.

Lemma metadata_accessors_witness :
  is_language "elixir" = false /\
  getLanguageIcon "elixir" = JS.Normal (JS.VString "FileCode") /\
  getFileExtension "elixir" = JS.Normal (JS.VString ".txt") /\
  getLanguageName "elixir" = JS.Normal (JS.VString "elixir").
Proof.
  pose proof (metadata_accessors "python" "elixir" Lang.python eq_refl)
    as (_ & _ & Hi & He & Hn).
  split; [reflexivity|].
  split; [exact Hi|]. split; [exact He|]. apply Hn. discriminate.
Defined.

(** C10.  On ["constructor"], a string outside the set, [getLanguageName]
    does not return the string itself: [LANGUAGE_INFO["constructor"]] is
    the function [Object] every object inherits, its [name] is ["Object"],
    and the fallback [|| language] is not reached.  The two other
    accessors find no [icon] and no [extension] on that function and do
    fall back. *)
Lemma getLanguageName_constructor :
  is_language "constructor" = false /\
  getLanguageName "constructor" = JS.Normal (JS.VString "Object") /\
  getLanguageName "constructor" <> JS.Normal (JS.VString "constructor") /\
  getLanguageIcon "constructor" = JS.Normal (JS.VString "FileCode") /\
  getFileExtension "constructor" = JS.Normal (JS.VString ".txt").
Proof.
  split; [reflexivity|]. split; [reflexivity|].
  split; [discriminate|]. split; reflexivity.
Qed.

(* ================================================================== *)
(** * Text metrics and previews                                        *)
(* ================================================================== *)

Section Lines.

Lemma occurrences_nonneg (sep : ascii) (s : string) : 0 <= occurrences sep s.
Proof.
  induction s as [|u r IH]; simpl; [lia|].
  destruct (Ascii.eqb u sep); lia.
Qed.

(** One segment more than there are separators. *)
Lemma split_length (sep : ascii) (s : string) :
  Z.of_nat (List.length (JS.split sep s)) = 1 + occurrences sep s.
Proof.
  induction s as [|u r IH]; [reflexivity|].
  pose proof (occurrences_nonneg sep r) as Hr.
  cbn [JS.split occurrences].
  destruct (Ascii.eqb u sep).
  - cbn [List.length]. lia.
  - destruct (JS.split sep r) as [|seg segs]; cbn [List.length] in *; lia.
Qed.

Lemma split_nonempty (sep : ascii) (s : string) : JS.split sep s <> [].
Proof.
  intros E. pose proof (split_length sep s) as H.
  pose proof (occurrences_nonneg sep s). rewrite E in H.
  cbn [List.length] in H. lia.
Qed.

Lemma join_cons (sep x : string) (a : list string) :
  a <> [] -> JS.join sep (x :: a) = x ++ sep ++ JS.join sep a.
Proof. now destruct a. Qed.

(** Joining the segments with the separator gives the string back. *)
Lemma join_split (s : string) : JS.join NL (JS.split JS.LF s) = s.
Proof.
  induction s as [|u r IH]; [reflexivity|].
  pose proof (split_nonempty JS.LF r) as Hne.
  cbn [JS.split]. destruct (Ascii.eqb_spec u JS.LF) as [->|_].
  - rewrite join_cons by assumption. now rewrite IH.
  - destruct (JS.split JS.LF r) as [|seg segs]; [contradiction|].
    destruct segs as [|seg' segs].
    + cbn in *. now rewrite IH.
    + rewrite join_cons by discriminate.
      rewrite join_cons in IH by discriminate.
      cbn [append]. now rewrite IH.
Qed.

(** [a.slice(0, n)] is the prefix of [n] elements. *)
Lemma slice_prefix {A : Type} (a : list A) (n : Z) :
  0 <= n -> JS.slice a 0 n = firstn (Z.to_nat n) a.
Proof.
  intros Hn. unfold JS.slice.
  destruct (0 <? 0) eqn:E0; [lia|].
  destruct (n <? 0) eqn:En; [lia|].
  replace (Z.to_nat (Z.min 0 (Z.of_nat (List.length a)))) with O by lia.
  cbn [skipn].
  destruct (Z.le_gt_cases n (Z.of_nat (List.length a))) as [Hle|Hgt].
  - f_equal. lia.
  - rewrite !firstn_all2 by lia. reflexivity.
Qed.

End Lines.

(** C6.  [countLines] is 0 on the empty string and on any other string the
    number of segments between line feeds, one more than there are line
    feeds; a final line feed therefore counts one line more. *)
Theorem countLines_segments (code : string) (Hcode : code <> "") :
  countLines "" = 0 /\
  countLines code = Z.of_nat (List.length (JS.split JS.LF code)) /\
  countLines code = 1 + occurrences JS.LF code /\
  countLines "a" = 1 /\
  countLines ("a" ++ NL ++ "b") = 2 /\
  countLines ("a" ++ NL) = 2.
Proof.
  assert (E : countLines code = Z.of_nat (List.length (JS.split JS.LF code)))
    by now destruct code.
  repeat split; try reflexivity; [exact E|].
  rewrite E. apply split_length.
Qed.

Lemma countLines_segments_witness :
  "x" ++ NL ++ NL <> "" /\ countLines ("x" ++ NL ++ NL) = 1 + 2.
Proof.
  assert (H : "x" ++ NL ++ NL <> "") by discriminate.
  split; [exact H|].
  exact (proj1 (proj2 (proj2 (countLines_segments _ H)))).
Defined.

(** C7.  For a line count [n >= 0], [getCodePreview] joins the first [n]
    segments with line feeds and appends a line feed and three dots exactly
    when there are more than [n] segments; with [n] segments or fewer the
    result is the code itself.  The count defaults to 3. *)
Theorem getCodePreview_lines (code : string) (n : Z) (Hn : 0 <= n) :
  let segments := JS.split JS.LF code in
  getCodePreview code (Some n) =
    JS.join NL (firstn (Z.to_nat n) segments) ++
    (if n <? Z.of_nat (List.length segments) then NL ++ "..." else "") /\
  (Z.of_nat (List.length segments) <= n ->
   getCodePreview code (Some n) = code) /\
  getCodePreview code None = getCodePreview code (Some 3) /\
  getCodePreview ("a" ++ NL ++ "b" ++ NL ++ "c" ++ NL ++ "d") (Some 2)
    = "a" ++ NL ++ "b" ++ NL ++ "..." /\
  getCodePreview ("a" ++ NL ++ "b") (Some 5) = "a" ++ NL ++ "b".
Proof.
  intros segments.
  assert (E : getCodePreview code (Some n) =
              JS.join NL (firstn (Z.to_nat n) segments) ++
              (if n <? Z.of_nat (List.length segments)
               then NL ++ "..." else "")).
  { unfold getCodePreview. fold segments. rewrite slice_prefix by assumption.
    fold NL. destruct (n <? Z.of_nat (List.length segments)).
    - reflexivity.
    - clear. induction (JS.join NL (firstn (Z.to_nat n) segments));
        cbn; congruence. }
  repeat split; try reflexivity; [exact E|].
  intros Hle. rewrite E.
  destruct (Z.ltb_spec n (Z.of_nat (List.length segments))); [lia|].
  rewrite firstn_all2 by lia. subst segments. rewrite join_split.
  clear. induction code; cbn; congruence.
Qed.

Lemma getCodePreview_lines_witness :
  0 <= 1 /\
  getCodePreview ("a" ++ NL ++ "b") (Some 1) = "a" ++ NL ++ "...".
Proof.
  split; [lia|].
  refine (proj1 (getCodePreview_lines ("a" ++ NL ++ "b") 1 _)). lia.
Defined.

(* ================================================================== *)
(** * File sizes                                                       *)
(* ================================================================== *)

Section Sizes.

(** [toFixed(1)] prints a nearest tenth. *)
Lemma toFixed1_rounded (num den : Z) :
  0 <= num -> 0 < den -> num < 10 ^ 21 * den ->
  rounded_to_one_decimal num den (JS.toFixed1 num den).
Proof.
  intros Hnum Hden Hbig. unfold rounded_to_one_decimal, JS.toFixed1.
  destruct (Z.leb_spec (10 ^ 21 * den) num) as [Hle|_]; [lia|].
  set (A := 2 * 10 * num + den). set (D := 2 * den).
  exists (A / D).
  pose proof (Z.div_mod A D ltac:(subst D; lia)) as Hdm.
  pose proof (Z.mod_pos_bound A D ltac:(subst D; lia)) as Hr.
  assert (Hq : 0 <= A / D) by (apply Z.div_pos; subst A D; lia).
  split; [exact Hq|]. split; [|reflexivity].
  subst A D. lia.
Qed.

End Sizes.




(* ================================================================== *)
(** * Truncation for display                                           *)
(* ================================================================== *)

Section Truncation.

Lemma substring_take (n : nat) (s : string) : String.substring 0 n s = take n s.
Proof.
  revert s; induction n as [|n IH]; intros [|u r]; cbn; try reflexivity.
  now rewrite IH.
Qed.

Lemma take_length (n : nat) (s : string) :
  String.length (take n s) = Nat.min n (String.length s).
Proof.
  revert s; induction n as [|n IH]; intros [|u r]; cbn; try reflexivity.
  now rewrite IH.
Qed.

Lemma take_take (p n : nat) (s : string) :
  (p <= n)%nat -> take p (take n s) = take p s.
Proof.
  revert n s; induction p as [|p IH]; intros [|n] [|u r] H; cbn;
    try reflexivity; try lia.
  rewrite IH by lia. reflexivity.
Qed.

Lemma take_all (n : nat) (s : string) :
  (String.length s <= n)%nat -> take n s = s.
Proof.
  revert s; induction n as [|n IH]; intros [|u r] H; cbn in *;
    try reflexivity; try lia.
  rewrite IH by lia. reflexivity.
Qed.

(** [s.substring(0, n)] is a prefix. *)
Lemma substring_prefix (s : string) (n : Z) :
  0 <= n -> JS.substring s 0 n = take (Z.to_nat n) s.
Proof.
  intros Hn. unfold JS.substring, JS.length. cbv beta zeta.
  set (len := Z.of_nat (String.length s)).
  assert (Hlen : 0 <= len) by (subst len; lia).
  replace (Z.min (Z.min (Z.max 0 0) len) (Z.min (Z.max n 0) len))
    with 0 by lia.
  replace (Z.max (Z.min (Z.max 0 0) len) (Z.min (Z.max n 0) len) - 0)
    with (Z.min n len) by lia.
  change (Z.to_nat 0) with O. rewrite substring_take.
  destruct (Z.le_gt_cases n len).
  - f_equal. lia.
  - rewrite !take_all by lia. reflexivity.
Qed.

Lemma scan_last_bounds (u : ascii) (s : string) (i found : Z) :
  found < i ->
  found <= JS.scan_last u s i found < i + Z.of_nat (String.length s).
Proof.
  revert i found; induction s as [|d r IH]; intros i found H;
    cbn [JS.scan_last String.length]; [lia|].
  destruct (Ascii.eqb d u).
  - pose proof (IH (i + 1) i ltac:(lia)). lia.
  - pose proof (IH (i + 1) found ltac:(lia)). lia.
Qed.

(** [lastIndexOf] answers [-1] or an offset of the string. *)
Lemma lastIndexOf_bounds (s : string) (u : ascii) :
  -1 <= JS.lastIndexOf s u < JS.length s.
Proof.
  unfold JS.lastIndexOf, JS.length.
  pose proof (scan_last_bounds u s 0 (-1) ltac:(lia)). lia.
Qed.

(** Rounding moves a value by less than one unit of the last place, which
    is at most [N / 2^52]. *)
Lemma round_binary64_error (N : Z) :
  0 <= N ->
  exists ulp, 0 <= ulp /\ ulp * 2 ^ 52 <= N /\
              N - ulp <= JS.round_binary64 N <= N + ulp.
Proof.
  intros HN. unfold JS.round_binary64.
  set (s := Z.max 0 (Z.log2 N - 52)).
  destruct (Z.eqb_spec s 0) as [E|E].
  - exists 0. lia.
  - assert (Hs : 0 < s /\ s = Z.log2 N - 52) by lia.
    destruct Hs as [Hs Es].
    assert (HNpos : 0 < N).
    { destruct (Z.eq_dec N 0) as [->|]; [cbn in Es; lia|lia]. }
    pose proof (Z.log2_spec N HNpos) as [Hlo _].
    replace (Z.log2 N) with (s + 52) in Hlo by lia.
    rewrite Z.pow_add_r in Hlo by lia.
    assert (Hp : 0 < 2 ^ s) by (apply Z.pow_pos_nonneg; lia).
    exists (2 ^ s). split; [lia|]. split; [exact Hlo|].
    pose proof (Z.div_mod N (2 ^ s) ltac:(lia)) as Hdm.
    pose proof (Z.mod_pos_bound N (2 ^ s) Hp) as Hr.
    destruct ((2 ^ (s - 1) <? N mod 2 ^ s)
              || (N mod 2 ^ s =? 2 ^ (s - 1)) && Z.odd (N / 2 ^ s)); lia.
Qed.

(** Away from the exact 70%, comparing with the binary64 product is
    comparing with 70%. *)
Lemma gt_times_0_7_exact (p m : Z) :
  0 <= m <= STRING_LENGTH_LIMIT -> 10 * p <> 7 * m ->
  JS.gt_times_0_7 p m = (7 * m <? 10 * p).
Proof.
  intros Hm Hne. unfold JS.gt_times_0_7.
  assert (E : JS.times_0_7 m = JS.round_binary64 (m * JS.mantissa_0_7)).
  { unfold JS.times_0_7. rewrite Z.abs_eq by lia.
    destruct (Z.eq_dec m 0) as [->|Hm0]; [reflexivity|].
    rewrite Z.sgn_pos by lia. apply Z.mul_1_l. }
  rewrite E. clear E.
  destruct (round_binary64_error (m * JS.mantissa_0_7)) as (ulp & H0 & Hu & HR).
  { unfold JS.mantissa_0_7. lia. }
  unfold JS.mantissa_0_7, STRING_LENGTH_LIMIT in *.
  change (2 ^ 52) with 4503599627370496 in Hu.
  change (2 ^ 53) with 9007199254740992.
  change (2 ^ 32) with 4294967296 in Hm.
  destruct (Z.ltb_spec (7 * m) (10 * p));
    destruct (Z.ltb_spec
                (JS.round_binary64 (m * 6305039478318694))
                (p * 9007199254740992)); try reflexivity; lia.
Qed.

End Truncation.

(** C5, as the code has it.  Code no longer than [maxLength] is returned
    unchanged.  Otherwise, with [t] the first [maxLength] code units and
    [p] the offset of the last line feed of [t], the result is the first
    [p] code units and ["\n..."] when [p] is above 70% of [maxLength], and
    [t] and ["..."] when it is below; when [p] is exactly 70% of
    [maxLength] the binary64 product [maxLength * 0.7] decides.  So the
    result is the one of the specification whenever [p] is not exactly 70%
    of [maxLength].  [maxLength] defaults to 150. *)
Theorem formatForDisplay_threshold (code : string) (maxLength : Z)
    (Hpos : 0 < maxLength) (Hlen : JS.length code <= STRING_LENGTH_LIMIT) :
  formatForDisplay code (Some maxLength) =
    (if JS.length code <=? maxLength then code
     else if (7 * maxLength
                <? 10 * JS.lastIndexOf (take (Z.to_nat maxLength) code) JS.LF)
             || (7 * maxLength
                   =? 10 * JS.lastIndexOf (take (Z.to_nat maxLength) code) JS.LF)
                && JS.gt_times_0_7
                     (JS.lastIndexOf (take (Z.to_nat maxLength) code) JS.LF)
                     maxLength
          then take (Z.to_nat
                       (JS.lastIndexOf (take (Z.to_nat maxLength) code) JS.LF))
                    code ++ NL ++ "..."
          else take (Z.to_nat maxLength) code ++ "...") /\
  (10 * JS.lastIndexOf (take (Z.to_nat maxLength) code) JS.LF
     <> 7 * maxLength ->
   formatForDisplay code (Some maxLength) =
   formatForDisplay_spec code maxLength) /\
  formatForDisplay code None = formatForDisplay code (Some 150).
Proof.
  assert (Hcode :
    (JS.length code <=? maxLength) = false ->
    formatForDisplay code (Some maxLength) =
    if JS.gt_times_0_7
         (JS.lastIndexOf (take (Z.to_nat maxLength) code) JS.LF) maxLength
    then take (Z.to_nat
                 (JS.lastIndexOf (take (Z.to_nat maxLength) code) JS.LF))
              code ++ NL ++ "..."
    else take (Z.to_nat maxLength) code ++ "...").
  { intros E. unfold formatForDisplay. rewrite E.
    rewrite substring_prefix by lia.
    set (t := take (Z.to_nat maxLength) code).
    pose proof (lastIndexOf_bounds t JS.LF) as Hp.
    set (p := JS.lastIndexOf t JS.LF) in *.
    destruct (JS.gt_times_0_7 p maxLength) eqn:G; [|reflexivity].
    assert (Hp0 : 0 <= p).
    { destruct (Z.le_gt_cases 0 p) as [|Hneg]; [assumption|].
      assert (p = -1) as -> by lia.
      rewrite gt_times_0_7_exact in G
        by (unfold JS.length in *; apply Z.leb_gt in E; lia).
      apply Z.ltb_lt in G. lia. }
    rewrite substring_prefix by assumption.
    subst t. rewrite take_take; [reflexivity|].
    unfold JS.length in Hp. rewrite take_length in Hp. lia. }
  split; [|split; [|reflexivity]].
  - destruct (JS.length code <=? maxLength) eqn:E.
    + unfold formatForDisplay. now rewrite E.
    + rewrite (Hcode eq_refl).
      set (p := JS.lastIndexOf (take (Z.to_nat maxLength) code) JS.LF).
      destruct (Z.eqb_spec (7 * maxLength) (10 * p)) as [Heq|Hne].
      * rewrite (proj2 (Z.ltb_ge _ _)) by lia. reflexivity.
      * rewrite gt_times_0_7_exact
          by (unfold JS.length in *; apply Z.leb_gt in E; lia).
        now rewrite orb_false_r.
  - intros Hne. unfold formatForDisplay_spec.
    destruct (JS.length code <=? maxLength) eqn:E.
    + unfold formatForDisplay. now rewrite E.
    + rewrite (Hcode eq_refl).
      rewrite gt_times_0_7_exact
        by (unfold JS.length in *; apply Z.leb_gt in E; lia).
      reflexivity.
Qed.

Lemma formatForDisplay_threshold_witness :
  0 < 90 /\ JS.length line_of_63 <= STRING_LENGTH_LIMIT /\
  formatForDisplay line_of_63 (Some 90) = replicate 63 "a" ++ NL ++ "...".
Proof.
  assert (Hpos : 0 < 90) by lia.
  assert (Hlen : JS.length line_of_63 <= STRING_LENGTH_LIMIT)
    by (vm_compute; discriminate).
  split; [exact Hpos|]. split; [exact Hlen|].
  rewrite (proj1 (formatForDisplay_threshold line_of_63 90 Hpos Hlen)).
  reflexivity.
Defined.

(** C5 as stated fails where the last line feed sits exactly at 70% of
    [maxLength] and the binary64 product falls short of it: [90 * 0.7] is
    [63 - 2^-47], so a line feed at offset 63 is above it, although 63 is
    not above 70% of 90. *)
Lemma formatForDisplay_threshold_counterexample :
  JS.length line_of_63 = 94 /\
  JS.lastIndexOf (take 90 line_of_63) JS.LF = 63 /\
  (7 * 90 <? 10 * 63) = false /\
  JS.times_0_7 90 = 63 * 2 ^ 53 - 2 ^ 6 /\
  formatForDisplay line_of_63 (Some 90) = replicate 63 "a" ++ NL ++ "..." /\
  formatForDisplay_spec line_of_63 90 = take 90 line_of_63 ++ "..." /\
  formatForDisplay line_of_63 (Some 90) <> formatForDisplay_spec line_of_63 90.
Proof. repeat split; try reflexivity. vm_compute. discriminate. Qed.

(* ================================================================== *)
(** * Validation                                                       *)
(* ================================================================== *)

Section Validation_lemmas.

Lemma trimEnd_empty (s : string) :
  JS.trimEnd s = "" <-> blank s = true.
Proof.
  induction s as [|u r IH]; cbn [JS.trimEnd blank]; [tauto|].
  destruct (JS.trimEnd r) as [|v w].
  - destruct (JS.is_white_space u); cbn [andb].
    + tauto.
    + split; discriminate.
  - split; [discriminate|].
    intros H. apply andb_true_iff in H as [_ H].
    apply IH in H. discriminate.
Qed.

Lemma blank_trimStart (s : string) : blank (JS.trimStart s) = blank s.
Proof.
  induction s as [|u r IH]; [reflexivity|].
  cbn [JS.trimStart]. destruct (JS.is_white_space u) eqn:E.
  - cbn [blank]. now rewrite E.
  - reflexivity.
Qed.

(** [trim] leaves nothing exactly of the blank strings. *)
Lemma trim_empty (s : string) : JS.trim s = "" <-> blank s = true.
Proof. unfold JS.trim. now rewrite trimEnd_empty, blank_trimStart. Qed.

(** [!s?.trim()] *)
Lemma not_trimmed (x : option string) :
  negb (JS.truthy_string (option_map JS.trim x)) =
  match x with Some s => blank s | None => true end.
Proof.
  destruct x as [s|]; [|reflexivity]. cbn.
  destruct (JS.trim s) eqn:E.
  - symmetry. now apply trim_empty.
  - destruct (blank s) eqn:B; [|reflexivity].
    apply trim_empty in B. congruence.
Qed.

(** [code && !isValidLength(code)] *)
Lemma present_and_too_long (s : string) :
  JS.truthy_string (Some s) && negb (isValidLength s) =
  (MAX_CODE_LENGTH <? JS.length s).
Proof.
  unfold isValidLength. rewrite <- Z.ltb_antisym.
  destruct s; [reflexivity|]. reflexivity.
Qed.

(** The array [validateSnippet] returns: what each of the three checks
    contributes, in the order of the checks. *)
Lemma validateSnippet_errors (snippet : PartialCodeSnippet) :
  errors (validateSnippet snippet) =
  (title_check snippet ++ code_check snippet ++ length_check snippet)%list.
Proof.
  unfold validateSnippet, title_check, code_check, length_check, push.
  cbn [errors]. rewrite !not_trimmed.
  destruct (title snippet) as [t|], (code snippet) as [s|];
    rewrite ?present_and_too_long;
    repeat match goal with
           | |- context [if ?b then _ else _] => destruct b
           end; reflexivity.
Qed.

Lemma validateSnippet_valid (snippet : PartialCodeSnippet) :
  valid (validateSnippet snippet) = true <->
  errors (validateSnippet snippet) = [].
Proof.
  unfold validateSnippet. cbn [valid errors].
  match goal with |- (Z.of_nat (List.length ?l) =? 0) = true <-> _ =>
    destruct l; cbn [List.length] end.
  - tauto.
  - split; [intros H; apply Z.eqb_eq in H; lia|discriminate].
Qed.

(** Of a record, the two fields decide the other. *)
Lemma validation_eq (v : Validation) (es : list string) :
  errors v = es -> (valid v = true <-> errors v = []) ->
  v = {| valid := match es with [] => true | _ => false end; errors := es |}.
Proof.
  destruct v as [b l]; cbn. intros -> H. f_equal.
  destruct es; destruct b; try reflexivity.
  - destruct H as [_ H]. now specialize (H eq_refl).
  - destruct H as [H _]. now specialize (H eq_refl).
Qed.

Lemma replicate_length (n : nat) (u : ascii) :
  JS.length (replicate n u) = Z.of_nat n.
Proof.
  unfold JS.length. f_equal. induction n as [|n IH]; cbn; congruence.
Qed.

Lemma replicate_blank (n : nat) (u : ascii) :
  JS.is_white_space u = true -> blank (replicate n u) = true.
Proof.
  intros H. induction n as [|n IH]; cbn [replicate blank]; [reflexivity|].
  now rewrite H, IH.
Qed.

End Validation_lemmas.

(** C2.  [validateSnippet] makes three checks, on the title, on the
    presence of code and on the length of the code; each failing check
    contributes its message whatever the others do, in that order; the
    result is valid exactly when no message was collected. *)
Theorem validateSnippet_accumulates (snippet : PartialCodeSnippet) :
  errors (validateSnippet snippet) =
    (title_check snippet ++ code_check snippet ++ length_check snippet)%list /\
  (valid (validateSnippet snippet) = true <->
   errors (validateSnippet snippet) = []) /\
  validateSnippet empty_snippet =
    {| valid := false;
       errors := ["Title is required"; "Code is required"] |} /\
  validateSnippet (titled_snippet "x" "y") =
    {| valid := true; errors := [] |}.
Proof.
  split; [apply validateSnippet_errors|].
  split; [apply validateSnippet_valid|].
  split; reflexivity.
Qed.

(** C3, as the code has it.  Code of exactly 50,001 code units that is not
    blank, under the title ["x"], is invalid with one error, the one on
    its length, which carries [formatFileSize(50000)]. *)
Theorem validateSnippet_too_long (text : string)
    (Hlen : JS.length text = 50001) (Hblank : blank text = false) :
  validateSnippet (titled_snippet "x" text) =
    {| valid := false;
       errors := ["Code exceeds maximum length of 48.8 KB"] |} /\
  "Code exceeds maximum length of " ++ formatFileSize MAX_CODE_LENGTH =
    "Code exceeds maximum length of 48.8 KB".
Proof.
  split; [|reflexivity].
  rewrite (validation_eq _ ["Code exceeds maximum length of 48.8 KB"]);
    [reflexivity| |apply validateSnippet_valid].
  rewrite validateSnippet_errors.
  unfold title_check, code_check, length_check, titled_snippet.
  cbn [title code blank JS.is_white_space]. rewrite Hblank, Hlen.
  reflexivity.
Qed.

Lemma validateSnippet_too_long_witness :
  JS.length (replicate (Z.to_nat 50001) "a") = 50001 /\
  blank (replicate (Z.to_nat 50001) "a") = false /\
  errors (validateSnippet
            (titled_snippet "x" (replicate (Z.to_nat 50001) "a"))) =
    ["Code exceeds maximum length of 48.8 KB"].
Proof.
  assert (Hlen : JS.length (replicate (Z.to_nat 50001) "a") = 50001)
    by (rewrite replicate_length; reflexivity).
  assert (Hblank : blank (replicate (Z.to_nat 50001) "a") = false)
    by reflexivity.
  split; [exact Hlen|]. split; [exact Hblank|].
  now rewrite (proj1 (validateSnippet_too_long _ Hlen Hblank)).
Defined.

(** C3 as stated fails on blank code: 50,001 spaces under the title ["x"]
    collect two errors, not one. *)
Lemma validateSnippet_too_long_counterexample :
  JS.length (replicate (Z.to_nat 50001) " ") = 50001 /\
  errors (validateSnippet
            (titled_snippet "x" (replicate (Z.to_nat 50001) " "))) =
    ["Code is required"; "Code exceeds maximum length of 48.8 KB"].
Proof.
  split; [rewrite replicate_length; reflexivity|].
  rewrite validateSnippet_errors.
  unfold title_check, code_check, length_check, titled_snippet.
  cbn [title code]. rewrite replicate_blank by reflexivity.
  rewrite replicate_length. reflexivity.
Qed.

(** C4.  A snippet whose title is not blank and whose code is blank and
    longer than 50,000 code units is invalid with two errors: the code is
    required, and it is too long. *)
Theorem validateSnippet_blank_and_long
    (snippet : PartialCodeSnippet) (t s : string)
    (Htitle : title snippet = Some t) (Hcode : code snippet = Some s)
    (Ht : blank t = false) (Hs : blank s = true)
    (Hlen : 50000 < JS.length s) :
  validateSnippet snippet =
    {| valid := false;
       errors := ["Code is required";
                  "Code exceeds maximum length of 48.8 KB"] |}.
Proof.
  rewrite (validation_eq _ ["Code is required";
                            "Code exceeds maximum length of 48.8 KB"]);
    [reflexivity| |apply validateSnippet_valid].
  rewrite validateSnippet_errors.
  unfold title_check, code_check, length_check.
  rewrite Htitle, Hcode, Ht, Hs.
  unfold MAX_CODE_LENGTH. apply Z.ltb_lt in Hlen. now rewrite Hlen.
Qed.

Lemma validateSnippet_blank_and_long_witness :
  blank "notes" = false /\
  blank (replicate (Z.to_nat 50002) " ") = true /\
  50000 < JS.length (replicate (Z.to_nat 50002) " ") /\
  validateSnippet (titled_snippet "notes" (replicate (Z.to_nat 50002) " ")) =
    {| valid := false;
       errors := ["Code is required";
                  "Code exceeds maximum length of 48.8 KB"] |}.
Proof.
  assert (Ht : blank "notes" = false) by reflexivity.
  assert (Hs : blank (replicate (Z.to_nat 50002) " ") = true)
    by (apply replicate_blank; reflexivity).
  assert (Hlen : 50000 < JS.length (replicate (Z.to_nat 50002) " "))
    by (rewrite replicate_length; reflexivity).
  repeat (split; [assumption|]).
  exact (validateSnippet_blank_and_long
           (titled_snippet "notes" (replicate (Z.to_nat 50002) " "))
           "notes" (replicate (Z.to_nat 50002) " ")
           eq_refl eq_refl Ht Hs Hlen).
Defined.

(* ================================================================== *)
(** * More on language detection                                       *)
(* ================================================================== *)

Section Detection_more.

Lemma includes_occurrences (sep : ascii) (s : string) :
  includes s sep = true -> 1 <= occurrences sep s.
Proof.
  induction s as [|u r IH]; cbn [includes occurrences]; [discriminate|].
  pose proof (occurrences_nonneg sep r) as Hr.
  destruct (Ascii.eqb u sep); cbn [orb]; [lia|].
  intros Hin. specialize (IH Hin). lia.
Qed.

Lemma pop_cons (x : string) (a : list string) :
  a <> [] -> JS.pop (x :: a) = JS.pop a.
Proof. now destruct a. Qed.

(** The last segment of a string that still holds a separator after its
    first code unit is the last segment of the rest. *)
Lemma pop_split_step (sep u : ascii) (s : string) :
  includes s sep = true ->
  JS.pop (JS.split sep (String u s)) = JS.pop (JS.split sep s).
Proof.
  intros H. apply includes_occurrences in H.
  pose proof (split_length sep s) as Hlen.
  cbn [JS.split]. destruct (Ascii.eqb u sep).
  - apply pop_cons. apply split_nonempty.
  - destruct (JS.split sep s) as [|x [|y l]]; cbn [List.length] in Hlen;
      try lia. reflexivity.
Qed.

Lemma includes_app_sep (sep : ascii) (a e : string) :
  includes (a ++ String sep e) sep = true.
Proof.
  induction a as [|u r IH]; cbn [append includes].
  - now rewrite Ascii.eqb_refl.
  - rewrite IH. apply orb_true_r.
Qed.

(** After the last separator comes the last segment. *)
Lemma pop_split_last (sep : ascii) (a e : string) :
  includes e sep = false ->
  JS.pop (JS.split sep (a ++ String sep e)) = Some e.
Proof.
  intros He. induction a as [|u r IH]; cbn [append].
  - cbn [JS.split]. rewrite Ascii.eqb_refl.
    now rewrite (split_without_separator _ _ He).
  - rewrite pop_split_step by apply includes_app_sep. exact IH.
Qed.

Lemma toLowerCase_app (a b : string) :
  JS.toLowerCase (a ++ b) = JS.toLowerCase a ++ JS.toLowerCase b.
Proof. induction a as [|u r IH]; cbn; congruence. Qed.

Lemma lower_unit_idempotent (u : ascii) :
  JS.lower_unit (JS.lower_unit u) = JS.lower_unit u.
Proof. destruct u as [[] [] [] [] [] [] [] []]; reflexivity. Qed.

Lemma lower_upper_unit (u : ascii) :
  JS.lower_unit (upper_unit u) = JS.lower_unit u.
Proof. destruct u as [[] [] [] [] [] [] [] []]; reflexivity. Qed.

Lemma toLowerCase_idempotent (s : string) :
  JS.toLowerCase (JS.toLowerCase s) = JS.toLowerCase s.
Proof.
  induction s as [|u r IH]; cbn; [reflexivity|].
  now rewrite lower_unit_idempotent, IH.
Qed.

Lemma toLowerCase_toUpperCase (s : string) :
  JS.toLowerCase (toUpperCase s) = JS.toLowerCase s.
Proof.
  induction s as [|u r IH]; cbn; [reflexivity|].
  now rewrite lower_upper_unit, IH.
Qed.

(** The extension token of [a ++ "." ++ e], for [e] without a dot. *)
Lemma detectLanguage_with_dot (a e : string) :
  includes e JS.DOT = false ->
  detectLanguage (a ++ String JS.DOT e) =
  JS.or (JS.get JS.VString languageMap (JS.toLowerCase e))
        (JS.VString "plaintext").
Proof.
  intros He. unfold detectLanguage.
  rewrite toLowerCase_app. cbn [JS.toLowerCase].
  change (JS.lower_unit JS.DOT) with JS.DOT.
  rewrite pop_split_last by now rewrite includes_toLowerCase.
  now rewrite or_string_empty.
Qed.

(** Every language of [languageMap] is one of the labels, and none is
    ['shell']. *)
Lemma languageMap_labels (k L : string) :
  JS.own languageMap k = Some L ->
  is_language L = true /\ L <> "shell".
Proof.
  unfold languageMap; cbn [JS.own].
  repeat match goal with
         | |- context [String.eqb k ?x] =>
             destruct (String.eqb k x);
             [intros [= <-]; split; [reflexivity|discriminate]|]
         end.
  discriminate.
Qed.

Lemma is_language_label (s : string) :
  is_language s = true -> exists L, s = Lang.label L.
Proof.
  unfold is_language. intros H.
  apply existsb_exists in H as (L & _ & H).
  exists L. now apply String.eqb_eq.
Qed.

(** What [detectLanguage] returns as a string is a label other than
    ['shell']. *)
Lemma detectLanguage_string (filename L : string) :
  detectLanguage filename = JS.VString L ->
  is_language L = true /\ L <> "shell".
Proof.
  unfold detectLanguage, JS.get.
  set (ext := JS.or_string _ _).
  destruct (JS.own languageMap ext) as [L0|] eqn:E.
  - unfold JS.or. rewrite (languageMap_values _ _ E).
    intros [= <-]. exact (languageMap_labels _ _ E).
  - unfold JS.Object_prototype.
    destruct (String.eqb ext "constructor"); [discriminate|].
    destruct (String.eqb ext "__proto__"); [discriminate|].
    destruct (existsb (String.eqb ext) JS.inherited_methods);
      [discriminate|].
    cbn. intros [= <-]. split; [reflexivity|discriminate].
Qed.

Lemma split_toLowerCase (s : string) :
  JS.split JS.DOT (JS.toLowerCase s) =
  map JS.toLowerCase (JS.split JS.DOT s).
Proof.
  induction s as [|u r IH]; [reflexivity|].
  cbn [JS.toLowerCase JS.split]. rewrite lower_unit_dot, IH.
  destruct (Ascii.eqb u JS.DOT); [reflexivity|].
  now destruct (JS.split JS.DOT r).
Qed.

Lemma pop_map (g : string -> string) (a : list string) :
  JS.pop (map g a) = option_map g (JS.pop a).
Proof.
  induction a as [|x [|y l] IH]; try reflexivity.
  exact IH.
Qed.

(** The extension token is in lower case. *)
Lemma token_lower_case (filename : string) :
  JS.toLowerCase
    (JS.or_string (JS.pop (JS.split JS.DOT (JS.toLowerCase filename))) "")
  = JS.or_string (JS.pop (JS.split JS.DOT (JS.toLowerCase filename))) "".
Proof.
  rewrite split_toLowerCase, pop_map.
  destruct (JS.pop (JS.split JS.DOT filename)) as [[|u r]|]; try reflexivity.
  cbn [option_map JS.toLowerCase JS.or_string].
  now rewrite lower_unit_idempotent, toLowerCase_idempotent.
Qed.

(** No inherited method has a name in lower case. *)
Lemma inherited_methods_capital (k : string) :
  JS.toLowerCase k = k ->
  existsb (String.eqb k) JS.inherited_methods = false.
Proof.
  intros Hk. unfold JS.inherited_methods. cbn [existsb].
  repeat match goal with
         | |- context [String.eqb k ?x] =>
             destruct (String.eqb_spec k x) as [->|_];
             [vm_compute in Hk; discriminate|]
         end.
  reflexivity.
Qed.

Lemma includes_app (a b : string) (u : ascii) :
  includes (a ++ b) u = includes a u || includes b u.
Proof.
  induction a as [|d r IH]; cbn [append includes]; [reflexivity|].
  now rewrite IH, orb_assoc.
Qed.

Lemma append_length (a b : string) :
  String.length (a ++ b) = (String.length a + String.length b)%nat.
Proof. induction a as [|d r IH]; cbn; congruence. Qed.

Lemma toLowerCase_length (s : string) :
  String.length (JS.toLowerCase s) = String.length s.
Proof. induction s as [|d r IH]; cbn; congruence. Qed.

(** No extension token of [languageMap] has more than 10 code units. *)
Lemma languageMap_key_length (k L : string) :
  JS.own languageMap k = Some L -> (String.length k <= 10)%nat.
Proof.
  unfold languageMap; cbn [JS.own].
  repeat match goal with
         | |- context [String.eqb k ?x] =>
             destruct (String.eqb_spec k x) as [->|_];
             [intros _; cbn; lia|]
         end.
  discriminate.
Qed.

(** A token that ends in ["dockerfile"] after something else is neither
    in [languageMap] nor inherited. *)
Lemma get_before_dockerfile (stem : string) :
  stem <> "" ->
  JS.get JS.VString languageMap
    (JS.toLowerCase (stem ++ "Dockerfile")) = JS.VUndefined.
Proof.
  intros Hstem. rewrite toLowerCase_app.
  change (JS.toLowerCase "Dockerfile") with "dockerfile".
  set (k := JS.toLowerCase stem ++ "dockerfile").
  assert (Hlen : String.length k = (String.length stem + 10)%nat).
  { subst k. now rewrite append_length, toLowerCase_length. }
  assert (Hlow : JS.toLowerCase k = k).
  { subst k. now rewrite toLowerCase_app, toLowerCase_idempotent. }
  unfold JS.get.
  destruct (JS.own languageMap k) as [L|] eqn:E.
  - apply languageMap_key_length in E. destruct stem; [contradiction|].
    cbn [String.length] in Hlen. lia.
  - unfold JS.Object_prototype.
    destruct (String.eqb_spec k "constructor") as [Ec|_].
    + exfalso. destruct stem as [|u [|v r]]; [contradiction| |].
      * subst k. cbn in Ec. inversion Ec.
      * rewrite Ec in Hlen. cbn in Hlen. lia.
    + destruct (String.eqb_spec k "__proto__") as [Ep|_].
      * exfalso. rewrite Ep in Hlen. cbn in Hlen. lia.
      * now rewrite (inherited_methods_capital _ Hlow).
Qed.

(** A name with a dot is classified like what follows its last dot. *)
Lemma detectLanguage_suffix (a e : string) :
  includes e JS.DOT = false ->
  detectLanguage (a ++ String JS.DOT e) = detectLanguage e.
Proof.
  intros He. rewrite (detectLanguage_without_dot e He).
  exact (detectLanguage_with_dot a e He).
Qed.

End Detection_more.

(** X1.  A file name is classified by what follows its last dot, as if
    that were the whole name. *)
Theorem detectLanguage_last_segment (base ext : string)
    (Hext : includes ext JS.DOT = false) :
  detectLanguage (base ++ "." ++ ext) = detectLanguage ext.
Proof.
  exact (detectLanguage_suffix base ext Hext).
Qed.

Lemma detectLanguage_last_segment_witness :
  includes "PY" JS.DOT = false /\
  detectLanguage ("archive.tar" ++ "." ++ "PY") = JS.VString "python".
Proof.
  split; [reflexivity|].
  now rewrite (detectLanguage_last_segment "archive.tar" "PY" eq_refl).
Defined.

(** X2.  Detection does not see the case of its input: the lower-cased
    name is classified like the name, and so is the upper-cased name when
    the name is made of ASCII code units. *)
Theorem detectLanguage_ignores_case (filename : string) :
  detectLanguage (JS.toLowerCase filename) = detectLanguage filename /\
  (ascii_only filename = true ->
   detectLanguage (toUpperCase filename) = detectLanguage filename).
Proof.
  unfold detectLanguage.
  now rewrite toLowerCase_idempotent, toLowerCase_toUpperCase.
Qed.

Lemma detectLanguage_ignores_case_witness :
  ascii_only "Setup.Py" = true /\
  detectLanguage "SETUP.PY" = JS.VString "python".
Proof.
  assert (H : ascii_only "Setup.Py" = true) by reflexivity.
  split; [exact H|].
  exact (proj2 (detectLanguage_ignores_case "Setup.Py") H).
Defined.

(** X3.  A name that ends in a dot has the empty extension token and is
    plain text. *)
Theorem detectLanguage_trailing_dot (base : string) :
  detectLanguage (base ++ ".") = JS.VString "plaintext".
Proof. exact (detectLanguage_with_dot base "" eq_refl). Qed.

(** X4.  [detectLanguage] returns one of the 25 labels, except on the two
    extension tokens every object has a property for: on ["constructor"]
    it returns the function [Object] and on ["__proto__"] the object
    [Object.prototype], neither of which is a string. *)
Theorem detectLanguage_range (filename : string) :
  (JS.or_string (JS.pop (JS.split JS.DOT (JS.toLowerCase filename))) ""
     <> "constructor" ->
   JS.or_string (JS.pop (JS.split JS.DOT (JS.toLowerCase filename))) ""
     <> "__proto__" ->
   exists L, detectLanguage filename = JS.VString (Lang.label L)) /\
  (JS.or_string (JS.pop (JS.split JS.DOT (JS.toLowerCase filename))) ""
     = "constructor" ->
   detectLanguage filename = JS.VFunction "Object") /\
  (JS.or_string (JS.pop (JS.split JS.DOT (JS.toLowerCase filename))) ""
     = "__proto__" ->
   detectLanguage filename = JS.VObjectPrototype).
Proof.
  pose proof (token_lower_case filename) as Hlow.
  unfold detectLanguage.
  set (ext := JS.or_string _ _) in *.
  split; [|split].
  - intros Hc Hp. unfold JS.get.
    destruct (JS.own languageMap ext) as [L0|] eqn:E.
    + unfold JS.or. rewrite (languageMap_values _ _ E).
      destruct (is_language_label L0) as [L ->];
        [apply (languageMap_labels _ _ E)|]. now exists L.
    + unfold JS.Object_prototype.
      destruct (String.eqb_spec ext "constructor"); [contradiction|].
      destruct (String.eqb_spec ext "__proto__"); [contradiction|].
      rewrite (inherited_methods_capital _ Hlow).
      now exists Lang.plaintext.
  - intros ->. reflexivity.
  - intros ->. reflexivity.
Qed.

Lemma detectLanguage_range_witness :
  (exists L, detectLanguage "notes.TXT" = JS.VString (Lang.label L)) /\
  detectLanguage "a.constructor" = JS.VFunction "Object".
Proof.
  split.
  - apply (proj1 (detectLanguage_range "notes.TXT")); discriminate.
  - apply (proj1 (proj2 (detectLanguage_range "a.constructor"))).
    reflexivity.
Defined.

(** X5.  No file name is classified as ['shell']: the label has metadata
    but no extension leads to it. *)
Theorem detectLanguage_never_shell (filename : string) :
  detectLanguage filename <> JS.VString "shell".
Proof.
  intros H. now destruct (detectLanguage_string _ _ H) as [_ Hne].
Qed.

(** X6.  The extension [getFileExtension] gives a language leads back to
    that language after any base name, for every label but ['shell'] and
    ['dockerfile']; the extension of ['shell'], [".sh"], leads to
    ['bash']. *)
Theorem extension_round_trip (L : Lang.ProgrammingLanguage) (base : string)
    (Hshell : L <> Lang.shell) (Hdocker : L <> Lang.dockerfile) :
  (exists ext,
     getFileExtension (Lang.label L) = JS.Normal (JS.VString ext) /\
     detectLanguage (base ++ ext) = JS.VString (Lang.label L)) /\
  getFileExtension "shell" = JS.Normal (JS.VString ".sh") /\
  detectLanguage (base ++ ".sh") = JS.VString "bash".
Proof.
  split; [|split; [reflexivity|]].
  - destruct L; try contradiction;
      (eexists; split; [reflexivity|]); cbn [JS.extension info];
      match goal with
      | |- detectLanguage (base ++ String "."%char ?e) = _ =>
          etransitivity;
          [exact (detectLanguage_suffix base e eq_refl)|reflexivity]
      end.
  - etransitivity;
      [exact (detectLanguage_suffix base "sh" eq_refl)|reflexivity].
Qed.

Lemma extension_round_trip_witness :
  Lang.kotlin <> Lang.shell /\ Lang.kotlin <> Lang.dockerfile /\
  exists ext,
    getFileExtension "kotlin" = JS.Normal (JS.VString ext) /\
    detectLanguage ("Main" ++ ext) = JS.VString "kotlin".
Proof.
  assert (H1 : Lang.kotlin <> Lang.shell) by discriminate.
  assert (H2 : Lang.kotlin <> Lang.dockerfile) by discriminate.
  split; [exact H1|]. split; [exact H2|].
  exact (proj1 (extension_round_trip Lang.kotlin "Main" H1 H2)).
Defined.

(** X21.  The extension of ['dockerfile'] is ["Dockerfile"], without a
    dot.  A name that ends in it is classified as ['dockerfile'] exactly
    when nothing stands between the last dot, or the start of the name,
    and ["Dockerfile"]; with anything in between it is plain text. *)
Theorem detectLanguage_Dockerfile (front stem : string)
    (Hstem : includes stem JS.DOT = false) :
  getFileExtension "dockerfile" = JS.Normal (JS.VString "Dockerfile") /\
  detectLanguage (stem ++ "Dockerfile") =
    JS.VString (if String.eqb stem "" then "dockerfile" else "plaintext") /\
  detectLanguage (front ++ "." ++ stem ++ "Dockerfile") =
    JS.VString (if String.eqb stem "" then "dockerfile" else "plaintext").
Proof.
  split; [reflexivity|].
  assert (Hdot : includes (stem ++ "Dockerfile") JS.DOT = false)
    by (rewrite includes_app, Hstem; reflexivity).
  assert (Hwhole :
    detectLanguage (stem ++ "Dockerfile") =
    JS.VString (if String.eqb stem "" then "dockerfile" else "plaintext")).
  { destruct stem as [|u r]; [reflexivity|].
    rewrite (detectLanguage_without_dot _ Hdot).
    now rewrite (get_before_dockerfile (String u r)) by discriminate. }
  split; [exact Hwhole|].
  rewrite <- Hwhole. exact (detectLanguage_suffix front _ Hdot).
Qed.

Lemma detectLanguage_Dockerfile_witness :
  includes "my" JS.DOT = false /\
  detectLanguage ("my" ++ "Dockerfile") = JS.VString "plaintext" /\
  detectLanguage ("docker" ++ "." ++ "" ++ "Dockerfile")
    = JS.VString "dockerfile".
Proof.
  split; [reflexivity|]. split.
  - exact (proj1 (proj2 (detectLanguage_Dockerfile "" "my" eq_refl))).
  - exact (proj2 (proj2 (detectLanguage_Dockerfile "docker" "" eq_refl))).
Defined.

(** X7.  Whatever language [detectLanguage] returns has a row in
    [LANGUAGE_INFO], so the three accessors answer from the table, with
    texts that are not empty, and never from their fallbacks. *)
Theorem detected_language_has_metadata (filename L : string)
    (Hdetect : detectLanguage filename = JS.VString L) :
  exists row,
    JS.own LANGUAGE_INFO L = Some row /\
    getLanguageName L = JS.Normal (JS.VString (JS.name row)) /\
    getLanguageIcon L = JS.Normal (JS.VString (JS.icon row)) /\
    getFileExtension L = JS.Normal (JS.VString (JS.extension row)) /\
    JS.name row <> "" /\ JS.icon row <> "" /\ JS.extension row <> "".
Proof.
  destruct (detectLanguage_string _ _ Hdetect) as [Hl _].
  destruct (is_language_label _ Hl) as [l ->].
  destruct l; eexists; (split; [reflexivity|]);
    repeat split; discriminate.
Qed.

Lemma detected_language_has_metadata_witness :
  exists row,
    JS.own LANGUAGE_INFO "yaml" = Some row /\
    getLanguageName "yaml" = JS.Normal (JS.VString (JS.name row)).
Proof.
  destruct (detected_language_has_metadata "compose.yml" "yaml" eq_refl)
    as (row & Hrow & Hname & _).
  exists row. split; assumption.
Defined.

(* ================================================================== *)
(** * More on validation, truncation and sizes                         *)
(* ================================================================== *)

(** X8.  A snippet is valid exactly when it has a title that is not blank
    and code that is not blank and of valid length; nothing else of the
    snippet matters. *)
Theorem validateSnippet_valid_iff (snippet : PartialCodeSnippet) :
  valid (validateSnippet snippet) = true <->
  exists t s,
    title snippet = Some t /\ code snippet = Some s /\
    blank t = false /\ blank s = false /\ isValidLength s = true.
Proof.
  rewrite validateSnippet_valid, validateSnippet_errors.
  unfold title_check, code_check, length_check, isValidLength.
  destruct (title snippet) as [t|], (code snippet) as [s|].
  - split.
    + intros H.
      destruct (blank t) eqn:Bt, (blank s) eqn:Bs,
        (MAX_CODE_LENGTH <? JS.length s) eqn:E; try discriminate.
      exists t, s. repeat split; try assumption.
      apply Z.leb_le. apply Z.ltb_ge in E. exact E.
    + intros (t' & s' & [= <-] & [= <-] & Ht & Hs & Hl).
      rewrite Ht, Hs. apply Z.leb_le in Hl.
      destruct (Z.ltb_spec MAX_CODE_LENGTH (JS.length s)); [lia|reflexivity].
  - split; [destruct (blank t); discriminate|].
    intros (t' & s' & _ & H & _). discriminate.
  - split; [discriminate|]. intros (t' & s' & H & _). discriminate.
  - split; [discriminate|]. intros (t' & s' & H & _). discriminate.
Qed.

Section Truncation_more.

Lemma string_length_app (a b : string) :
  JS.length (a ++ b) = JS.length a + JS.length b.
Proof.
  unfold JS.length. induction a as [|u r IH]; cbn [append String.length].
  - lia.
  - lia.
Qed.

Lemma round_binary64_nonneg (N : Z) : 0 <= N -> 0 <= JS.round_binary64 N.
Proof.
  intros HN. destruct (round_binary64_error N HN) as (ulp & H0 & Hu & HR).
  change (2 ^ 52) with 4503599627370496 in Hu. lia.
Qed.

Lemma times_0_7_nonneg (m : Z) : 0 <= m -> 0 <= JS.times_0_7 m.
Proof.
  intros Hm. unfold JS.times_0_7. apply Z.mul_nonneg_nonneg.
  - now apply Z.sgn_nonneg.
  - apply round_binary64_nonneg. unfold JS.mantissa_0_7. lia.
Qed.

(** Only a positive offset is above [m * 0.7] when [m] is not negative. *)
Lemma gt_times_0_7_positive (p m : Z) :
  0 <= m -> JS.gt_times_0_7 p m = true -> 0 < p.
Proof.
  intros Hm H. unfold JS.gt_times_0_7 in H. apply Z.ltb_lt in H.
  pose proof (times_0_7_nonneg m Hm).
  change (2 ^ 53) with 9007199254740992 in H. lia.
Qed.

Lemma scan_last_absent (u : ascii) (s : string) (i found : Z) :
  includes s u = false -> JS.scan_last u s i found = found.
Proof.
  revert i found; induction s as [|d r IH]; intros i found H;
    cbn [JS.scan_last]; [reflexivity|].
  cbn [includes] in H. apply orb_false_iff in H as [Hd Hr].
  rewrite Hd. now apply IH.
Qed.

(** The display text is never longer than the limit and three dots. *)
Lemma formatForDisplay_bound (code : string) (m : Z) :
  0 <= m -> JS.length (formatForDisplay code (Some m)) <= m + 3.
Proof.
  intros Hm. unfold formatForDisplay.
  destruct (Z.leb_spec (JS.length code) m) as [Hle|Hgt]; [lia|].
  rewrite substring_prefix by assumption.
  set (t := take (Z.to_nat m) code).
  pose proof (lastIndexOf_bounds t JS.LF) as Hp.
  assert (Ht : JS.length t = m).
  { unfold JS.length in *. subst t. rewrite take_length. lia. }
  destruct (JS.gt_times_0_7 (JS.lastIndexOf t JS.LF) m) eqn:G.
  - apply gt_times_0_7_positive in G; [|assumption].
    rewrite substring_prefix by lia. rewrite string_length_app.
    assert (JS.length (take (Z.to_nat (JS.lastIndexOf t JS.LF)) t)
            <= JS.lastIndexOf t JS.LF).
    { unfold JS.length. rewrite take_length. lia. }
    change (JS.length (String JS.LF "...")) with 4. lia.
  - rewrite string_length_app. change (JS.length "...") with 3. lia.
Qed.

End Truncation_more.

(** X9.  For a limit [maxLength >= 0] the display text has at most
    [maxLength + 3] code units; with the default limit it has at most 153
    and is of valid length, whatever the code. *)
Theorem formatForDisplay_length (code : string) (maxLength : Z)
    (Hmax : 0 <= maxLength) :
  JS.length (formatForDisplay code (Some maxLength)) <= maxLength + 3 /\
  JS.length (formatForDisplay code None) <= 153 /\
  isValidLength (formatForDisplay code None) = true.
Proof.
  split; [now apply formatForDisplay_bound|].
  assert (H : JS.length (formatForDisplay code None) <= 153).
  { change (formatForDisplay code None)
      with (formatForDisplay code (Some 150)).
    apply (formatForDisplay_bound code 150). lia. }
  split; [exact H|].
  unfold isValidLength, MAX_CODE_LENGTH. apply Z.leb_le. lia.
Qed.

Lemma formatForDisplay_length_witness :
  0 <= 90 /\ JS.length (formatForDisplay line_of_63 (Some 90)) <= 90 + 3.
Proof.
  assert (H : 0 <= 90) by lia.
  split; [exact H|].
  exact (proj1 (formatForDisplay_length line_of_63 90 H)).
Defined.

(** X10.  Code longer than the limit whose first [maxLength] code units
    hold no line feed is cut at exactly [maxLength] code units, followed
    by three dots. *)
Theorem formatForDisplay_hard_cut (code : string) (maxLength : Z)
    (Hmax : 0 <= maxLength) (Hlong : maxLength < JS.length code)
    (Hline : includes (take (Z.to_nat maxLength) code) JS.LF = false) :
  formatForDisplay code (Some maxLength) =
  take (Z.to_nat maxLength) code ++ "...".
Proof.
  unfold formatForDisplay.
  destruct (Z.leb_spec (JS.length code) maxLength) as [Hle|_]; [lia|].
  rewrite substring_prefix by assumption.
  unfold JS.lastIndexOf. rewrite scan_last_absent by assumption.
  destruct (JS.gt_times_0_7 (-1) maxLength) eqn:G; [|reflexivity].
  apply gt_times_0_7_positive in G; [lia|assumption].
Qed.

Lemma formatForDisplay_hard_cut_witness :
  0 <= 3 /\ 3 < JS.length "abcdef" /\
  includes (take (Z.to_nat 3) "abcdef") JS.LF = false /\
  formatForDisplay "abcdef" (Some 3) = "abc...".
Proof.
  assert (H1 : 0 <= 3) by lia.
  assert (H2 : 3 < JS.length "abcdef") by reflexivity.
  assert (H3 : includes (take (Z.to_nat 3) "abcdef") JS.LF = false)
    by reflexivity.
  repeat (split; [assumption|]).
  exact (formatForDisplay_hard_cut "abcdef" 3 H1 H2 H3).
Defined.

(** X11.  Just below one mebibyte the size is still printed in KB, and
    rounds to ["1024.0 KB"]: from 1,048,525 bytes up to 1,048,575. *)
Theorem formatFileSize_kilobyte_edge (bytes : Z)
    (Hlo : 1048525 <= bytes) (Hhi : bytes < 1024 * 1024) :
  formatFileSize bytes = "1024.0 KB".
Proof.
  unfold formatFileSize.
  destruct (Z.ltb_spec bytes 1024); [lia|].
  destruct (Z.ltb_spec bytes (1024 * 1024)); [|lia].
  unfold JS.toFixed1.
  destruct (Z.leb_spec (10 ^ 21 * 1024) bytes) as [Hbig|_]; [lia|].
  replace ((2 * 10 * bytes + 1024) / (2 * 1024)) with 10240; [reflexivity|].
  apply Z.div_unique with (r := 2 * 10 * bytes + 1024 - 2 * 1024 * 10240);
    lia.
Qed.

Lemma formatFileSize_kilobyte_edge_witness :
  1048525 <= 1048575 /\ 1048575 < 1024 * 1024 /\
  formatFileSize 1048575 = "1024.0 KB".
Proof.
  assert (H1 : 1048525 <= 1048575) by lia.
  assert (H2 : 1048575 < 1024 * 1024) by lia.
  split; [exact H1|]. split; [exact H2|].
  exact (formatFileSize_kilobyte_edge 1048575 H1 H2).
Defined.

(* ================================================================== *)
(** * More on previews                                                 *)
(* ================================================================== *)

Section Preview_more.

Lemma split_app_sep (sep : ascii) (x rest : string) :
  includes x sep = false ->
  JS.split sep (x ++ String sep rest) = x :: JS.split sep rest.
Proof.
  induction x as [|u r IH]; cbn [append includes JS.split]; intros H.
  - now rewrite Ascii.eqb_refl.
  - apply orb_false_iff in H as [Hu Hr]. now rewrite Hu, (IH Hr).
Qed.

(** No segment holds the separator. *)
Lemma split_segments (sep : ascii) (s : string) :
  Forall (fun seg => includes seg sep = false) (JS.split sep s).
Proof.
  induction s as [|u r IH]; cbn [JS.split].
  - now constructor.
  - destruct (Ascii.eqb u sep) eqn:E.
    + now constructor.
    + destruct (JS.split sep r) as [|seg segs].
      * constructor; [|constructor]. cbn. now rewrite E.
      * inversion IH as [|? ? Hseg Hsegs]; subst.
        constructor; [|assumption]. cbn. now rewrite E.
Qed.

(** Splitting what [join] made of segments without line feeds gives the
    segments back. *)
Lemma split_join (a : list string) :
  a <> [] -> Forall (fun seg => includes seg JS.LF = false) a ->
  JS.split JS.LF (JS.join NL a) = a.
Proof.
  induction a as [|x [|y l] IH]; intros Hne Hall; [contradiction|..].
  - inversion Hall; subst. now apply split_without_separator.
  - inversion Hall as [|? ? Hx Hrest]; subst.
    rewrite join_cons by discriminate. unfold NL at 1. cbn [append].
    rewrite split_app_sep by assumption.
    now rewrite IH by (discriminate || assumption).
Qed.

Lemma append_assoc (a b d : string) : (a ++ b) ++ d = a ++ b ++ d.
Proof. induction a as [|u r IH]; cbn; congruence. Qed.

Lemma join_snoc (a : list string) (x : string) :
  a <> [] -> JS.join NL (a ++ [x]) = JS.join NL a ++ NL ++ x.
Proof.
  induction a as [|y [|z l] IH]; intros Hne; [contradiction|reflexivity|].
  change ((y :: z :: l) ++ [x])%list with (y :: ((z :: l) ++ [x]))%list.
  rewrite join_cons by (cbn; discriminate).
  rewrite IH by discriminate.
  rewrite (join_cons NL y (z :: l)) by discriminate.
  now rewrite !append_assoc.
Qed.

Lemma Forall_prefix {A : Type} (P : A -> Prop) (n : nat) (a : list A) :
  Forall P a -> Forall P (firstn n a).
Proof.
  revert a; induction n as [|n IH]; intros [|x l] H; cbn; try constructor.
  - now inversion H.
  - apply IH. now inversion H.
Qed.

Lemma countLines_split (s : string) :
  s <> "" -> countLines s = Z.of_nat (List.length (JS.split JS.LF s)).
Proof. now destruct s. Qed.

Lemma countLines_le (s : string) :
  countLines s <= Z.of_nat (List.length (JS.split JS.LF s)).
Proof. destruct s; [cbn; lia|]. rewrite countLines_split by discriminate. lia. Qed.

(** The preview, by cases on the line count. *)
Lemma getCodePreview_cases (code : string) (n : Z) :
  0 <= n ->
  getCodePreview code (Some n) =
  if n <? Z.of_nat (List.length (JS.split JS.LF code))
  then JS.join NL (firstn (Z.to_nat n) (JS.split JS.LF code)) ++ NL ++ "..."
  else code.
Proof.
  intros Hn. unfold getCodePreview. rewrite slice_prefix by assumption.
  fold NL.
  destruct (Z.ltb_spec n (Z.of_nat (List.length (JS.split JS.LF code)))).
  - reflexivity.
  - rewrite firstn_all2 by lia. apply join_split.
Qed.

End Preview_more.

(** X12.  A preview of [n >= 1] lines has at most [n + 1] lines as
    [countLines] counts them, and exactly [n + 1], the marker being the
    last, when the code has more than [n] segments. *)
Theorem getCodePreview_line_count (code : string) (n : Z) (Hn : 1 <= n) :
  countLines (getCodePreview code (Some n)) <= n + 1 /\
  (n < Z.of_nat (List.length (JS.split JS.LF code)) ->
   countLines (getCodePreview code (Some n)) = n + 1 /\
   JS.pop (JS.split JS.LF (getCodePreview code (Some n))) = Some "...").
Proof.
  rewrite getCodePreview_cases by lia.
  pose proof (split_segments JS.LF code) as Hall.
  pose proof (countLines_le code) as Hle.
  destruct (Z.ltb_spec n (Z.of_nat (List.length (JS.split JS.LF code))))
    as [Hlt|Hge].
  - set (segs := JS.split JS.LF code) in *.
    assert (Hne : firstn (Z.to_nat n) segs <> []).
    { destruct segs as [|x l]; [cbn in Hlt; lia|].
      destruct (Z.to_nat n) eqn:E; [lia|discriminate]. }
    rewrite <- join_snoc by assumption.
    assert (Hsplit :
      JS.split JS.LF (JS.join NL (firstn (Z.to_nat n) segs ++ ["..."]))
      = (firstn (Z.to_nat n) segs ++ ["..."])%list).
    { apply split_join.
      - destruct (firstn (Z.to_nat n) segs); discriminate.
      - apply Forall_app. split; [now apply Forall_prefix|].
        now constructor. }
    assert (Hcount :
      countLines (JS.join NL (firstn (Z.to_nat n) segs ++ ["..."])) = n + 1).
    { rewrite countLines_split.
      - rewrite Hsplit, length_app, length_firstn. cbn [List.length]. lia.
      - intros E. rewrite E in Hsplit. cbn in Hsplit.
        destruct (firstn (Z.to_nat n) segs) as [|x [|y l]]; discriminate. }
    split; [lia|]. intros _. split; [exact Hcount|].
    rewrite Hsplit. clear.
    induction (firstn (Z.to_nat n) segs) as [|x [|y l] IH]; try reflexivity.
    exact IH.
  - split; [lia|]. intros H. lia.
Qed.

Lemma getCodePreview_line_count_witness :
  1 <= 2 /\
  countLines
    (getCodePreview ("a" ++ NL ++ "b" ++ NL ++ "c" ++ NL) (Some 2)) = 2 + 1.
Proof.
  assert (H : 1 <= 2) by lia.
  split; [exact H|].
  apply (proj2 (getCodePreview_line_count
                  ("a" ++ NL ++ "b" ++ NL ++ "c" ++ NL) 2 H)).
  vm_compute. reflexivity.
Defined.

(** X13.  A line count that is not positive still gives the marker: a
    count of 0 gives the marker alone, for any code, and a negative count
    [n] gives the segments but the last [-n], then the marker. *)
Theorem getCodePreview_without_lines (code : string) (n : Z) (Hn : n < 0) :
  getCodePreview code (Some 0) = NL ++ "..." /\
  getCodePreview code (Some n) =
    JS.join NL
      (firstn (Z.to_nat (Z.of_nat (List.length (JS.split JS.LF code)) + n))
              (JS.split JS.LF code))
    ++ NL ++ "...".
Proof.
  pose proof (split_length JS.LF code) as Hlen.
  pose proof (occurrences_nonneg JS.LF code) as Hocc.
  split.
  - rewrite getCodePreview_cases by lia.
    destruct (Z.ltb_spec 0 (Z.of_nat (List.length (JS.split JS.LF code))));
      [reflexivity|lia].
  - unfold getCodePreview, JS.slice. fold NL.
    set (len := Z.of_nat (List.length (JS.split JS.LF code))) in *.
    destruct (Z.ltb_spec n len); [|lia].
    destruct (Z.ltb_spec 0 0); [lia|].
    destruct (Z.ltb_spec n 0); [|lia].
    replace (Z.to_nat (Z.min 0 len)) with O by lia. cbn [skipn].
    replace (Z.to_nat (Z.max (Z.max (len + n) 0 - Z.min 0 len) 0))
      with (Z.to_nat (len + n)) by lia.
    reflexivity.
Qed.

Lemma getCodePreview_without_lines_witness :
  -1 < 0 /\
  getCodePreview ("a" ++ NL ++ "b" ++ NL ++ "c") (Some (-1))
    = "a" ++ NL ++ "b" ++ NL ++ "...".
Proof.
  assert (H : -1 < 0) by lia.
  split; [exact H|].
  exact (proj2 (getCodePreview_without_lines
                  ("a" ++ NL ++ "b" ++ NL ++ "c") (-1) H)).
Defined.

(* ================================================================== *)
(** * The components                                                   *)
(* ================================================================== *)

Section Components.

Lemma occurrences_absent (sep : ascii) (s : string) :
  includes s sep = false -> occurrences sep s = 0.
Proof.
  induction s as [|u r IH]; cbn [includes occurrences]; [reflexivity|].
  intros H. apply orb_false_iff in H as [Hu Hr].
  rewrite Hu, (IH Hr). reflexivity.
Qed.

Lemma rows_from_numbers (index : Z) (ls : list string) :
  map fst (CodeBlock.rows_from true index ls) =
  map (fun i => Some (index + Z.of_nat i + 1)) (seq 0 (List.length ls)).
Proof.
  revert index; induction ls as [|line rest IH]; intros index;
    [reflexivity|].
  cbn [CodeBlock.rows_from map fst List.length seq].
  rewrite IH, <- seq_shift, map_map. f_equal.
  - f_equal. lia.
  - apply map_ext. intros i. f_equal. lia.
Qed.

Lemma rows_from_texts (show : bool) (index : Z) (ls : list string) :
  map snd (CodeBlock.rows_from show index ls) =
  map (fun line => JS.or_string (Some line) " ") ls.
Proof.
  revert index; induction ls as [|line rest IH]; intros index;
    [reflexivity|].
  cbn [CodeBlock.rows_from map snd]. now rewrite IH.
Qed.

Lemma prefix_of_seq (n k : nat) :
  (n <= k)%nat -> firstn n (seq 0 k) = seq 0 n.
Proof.
  generalize 0%nat as start.
  revert k; induction n as [|n IH]; intros [|k] start H; cbn;
    try reflexivity; try lia.
  rewrite IH by lia. reflexivity.
Qed.

End Components.

(** X14.  Both components count the lines of their text as [countLines]
    does, except that they count one line in the empty text, where
    [countLines] counts none.  The count is 1 exactly when the text has
    no line feed, and the footer then reads ["1 line"]. *)
Theorem lineCount_and_countLines (text : string) :
  CodeInput.lineCount text = CodeBlock.lineCount text /\
  CodeBlock.lineCount text =
    (if String.eqb text "" then 1 else countLines text) /\
  1 <= CodeBlock.lineCount text /\
  (CodeBlock.lineCount text = 1 <-> includes text JS.LF = false) /\
  (includes text JS.LF = false -> CodeBlock.footerLines text = "1 line").
Proof.
  pose proof (split_length JS.LF text) as Hlen.
  pose proof (occurrences_nonneg JS.LF text) as Hocc.
  assert (Hone : CodeBlock.lineCount text = 1 <-> includes text JS.LF = false).
  { unfold CodeBlock.lineCount, CodeBlock.lines. split.
    - intros H. destruct (includes text JS.LF) eqn:E; [|reflexivity].
      apply includes_occurrences in E. lia.
    - intros H. apply occurrences_absent in H. lia. }
  split; [reflexivity|]. split; [now destruct text|].
  split; [unfold CodeBlock.lineCount, CodeBlock.lines; lia|].
  split; [exact Hone|].
  intros H. apply Hone in H. unfold CodeBlock.footerLines. now rewrite H.
Qed.

(** X15.  [CodeBlock] lays out one row per line.  With line numbers shown
    the rows are numbered 1, 2, ... in order; no row has an empty text, an
    empty line being shown as a space; and when the code has no empty
    line, the row texts joined by line feeds are the code. *)
Theorem CodeBlock_rows (code : string) (showLineNumbers : bool) :
  Z.of_nat (List.length (CodeBlock.rows code showLineNumbers))
    = CodeBlock.lineCount code /\
  map fst (CodeBlock.rows code true) =
    map (fun i => Some (Z.of_nat i + 1))
        (seq 0 (Z.to_nat (CodeBlock.lineCount code))) /\
  Forall (fun row => snd row <> "") (CodeBlock.rows code showLineNumbers) /\
  (Forall (fun line => line <> "") (CodeBlock.lines code) ->
   JS.join NL (map snd (CodeBlock.rows code showLineNumbers)) = code).
Proof.
  unfold CodeBlock.rows, CodeBlock.lineCount.
  split; [|split; [|split]].
  - rewrite <- (length_map snd), rows_from_texts, length_map. reflexivity.
  - rewrite rows_from_numbers, Nat2Z.id. apply map_ext. intros i.
    f_equal.
  - apply Forall_forall. intros row Hin.
    apply (in_map snd) in Hin. rewrite rows_from_texts in Hin.
    apply in_map_iff in Hin as (line & <- & _). now destruct line.
  - intros Hlines. rewrite rows_from_texts.
    replace (map (fun line => JS.or_string (Some line) " ")
                 (CodeBlock.lines code)) with (CodeBlock.lines code).
    + apply join_split.
    + induction Hlines as [|line rest Hline _ IH]; [reflexivity|].
      cbn [map]. rewrite <- IH. now destruct line.
Qed.

(** X16.  The gutter of [CodeInput] holds the numbers 1, 2, ... in order,
    as many as there are lines and never fewer than 10; its first numbers
    are the ones [CodeBlock] puts on its rows. *)
Theorem CodeInput_gutter (value : string) :
  Z.of_nat (List.length (CodeInput.lineNumbers value))
    = Z.max (CodeInput.lineCount value) 10 /\
  (forall i, (i < List.length (CodeInput.lineNumbers value))%nat ->
             nth i (CodeInput.lineNumbers value) 0 = Z.of_nat i + 1) /\
  map Some (firstn (Z.to_nat (CodeInput.lineCount value))
                   (CodeInput.lineNumbers value))
    = map fst (CodeBlock.rows value true).
Proof.
  unfold CodeInput.lineNumbers.
  split; [|split].
  - rewrite length_map, length_seq. lia.
  - intros i Hi. rewrite length_map, length_seq in Hi.
    rewrite (nth_indep _ 0 (Z.of_nat 0 + 1))
      by now rewrite length_map, length_seq.
    rewrite (map_nth (fun i => Z.of_nat i + 1)).
    now rewrite seq_nth.
  - rewrite firstn_map, prefix_of_seq by lia.
    unfold CodeBlock.rows. rewrite rows_from_numbers, map_map.
    unfold CodeInput.lineCount, CodeBlock.lines. rewrite Nat2Z.id.
    apply map_ext. intros i. f_equal.
Qed.

(** X17.  Under code of valid length the size in the footer of
    [CodeBlock] is in bytes or in KB, never in MB. *)
Theorem CodeBlock_footer_size (text : string)
    (Hvalid : isValidLength text = true) :
  (JS.length text < 1024 /\
   CodeBlock.footerSize text = JS.toString (JS.length text) ++ " B") \/
  (1024 <= JS.length text /\
   exists x, rounded_to_one_decimal (JS.length text) 1024 x /\
             CodeBlock.footerSize text = x ++ " KB").
Proof.
  unfold isValidLength, MAX_CODE_LENGTH in Hvalid. apply Z.leb_le in Hvalid.
  unfold CodeBlock.footerSize, formatFileSize.
  destruct (Z.ltb_spec (JS.length text) 1024) as [Hlt|Hge].
  - left. split; [assumption|reflexivity].
  - right. split; [assumption|].
    destruct (Z.ltb_spec (JS.length text) (1024 * 1024)); [|lia].
    eexists; split; [apply toFixed1_rounded; lia|reflexivity].
Qed.

Lemma CodeBlock_footer_size_witness :
  isValidLength (replicate (Z.to_nat 1536) "x") = true /\
  CodeBlock.footerSize (replicate (Z.to_nat 1536) "x") = "1.5 KB".
Proof.
  assert (H : isValidLength (replicate (Z.to_nat 1536) "x") = true)
    by (unfold isValidLength; rewrite replicate_length; reflexivity).
  split; [exact H|].
  destruct (CodeBlock_footer_size _ H) as [[Hlt _]|[_ (x & _ & Hx)]].
  - rewrite replicate_length in Hlt. vm_compute in Hlt. discriminate.
  - unfold CodeBlock.footerSize. rewrite replicate_length. reflexivity.
Defined.

(* ================================================================== *)
(** * How counting and previewing compose                              *)
(* ================================================================== *)

Section Composition.

Lemma occurrences_app (sep : ascii) (a b : string) :
  occurrences sep (a ++ b) = occurrences sep a + occurrences sep b.
Proof.
  induction a as [|u r IH]; cbn [append occurrences]; [reflexivity|].
  rewrite IH. lia.
Qed.

Lemma countLines_occurrences (s : string) :
  s <> "" -> countLines s = 1 + occurrences JS.LF s.
Proof.
  intros H. rewrite countLines_split by assumption. apply split_length.
Qed.

Lemma append_nonempty (a b : string) : b <> "" -> a ++ b <> "".
Proof. destruct a; [now cbn|discriminate]. Qed.

End Composition.

(** X18.  Lines add up: two texts that are not empty, put together with a
    line feed between them, have the lines of both; a line feed at the end
    of a text that is not empty adds one line. *)
Theorem countLines_append (a b : string)
    (Ha : a <> "") (Hb : b <> "") :
  countLines (a ++ NL ++ b) = countLines a + countLines b /\
  countLines (a ++ NL) = countLines a + 1.
Proof.
  rewrite !countLines_occurrences;
    try assumption; try (apply append_nonempty; discriminate).
  rewrite !occurrences_app. cbn [occurrences NL].
  rewrite Ascii.eqb_refl. lia.
Qed.

Lemma countLines_append_witness :
  "a" <> "" /\ "b" ++ NL ++ "c" <> "" /\
  countLines ("a" ++ NL ++ "b" ++ NL ++ "c") = 1 + 2.
Proof.
  assert (Ha : "a" <> "") by discriminate.
  assert (Hb : "b" ++ NL ++ "c" <> "") by discriminate.
  split; [exact Ha|]. split; [exact Hb|].
  exact (proj1 (countLines_append "a" ("b" ++ NL ++ "c") Ha Hb)).
Defined.

(** X19.  Previewing a preview changes nothing: for a line count
    [n >= 0], the preview of the preview of a text is the preview of the
    text. *)
Theorem getCodePreview_idempotent (code : string) (n : Z) (Hn : 0 <= n) :
  getCodePreview (getCodePreview code (Some n)) (Some n)
  = getCodePreview code (Some n).
Proof.
  destruct (Z.eq_dec n 0) as [->|Hn0].
  { pose proof (split_length JS.LF code) as Hlen.
    pose proof (occurrences_nonneg JS.LF code) as Hocc.
    rewrite (getCodePreview_cases code 0) by lia.
    destruct (Z.ltb_spec 0 (Z.of_nat (List.length (JS.split JS.LF code))));
      [reflexivity|lia]. }
  rewrite (getCodePreview_cases code n) by lia.
  pose proof (split_segments JS.LF code) as Hall.
  destruct (Z.ltb_spec n (Z.of_nat (List.length (JS.split JS.LF code))))
    as [Hlt|Hge].
  - set (segs := JS.split JS.LF code) in *.
    set (F := firstn (Z.to_nat n) segs).
    assert (HF : List.length F = Z.to_nat n)
      by (subst F; rewrite length_firstn; lia).
    assert (Hne : F <> []) by (destruct F; [cbn in HF; lia|discriminate]).
    rewrite <- join_snoc by assumption.
    assert (Hsplit : JS.split JS.LF (JS.join NL (F ++ ["..."]))
                     = (F ++ ["..."])%list).
    { apply split_join.
      - destruct F; discriminate.
      - apply Forall_app. split; [now apply Forall_prefix|].
        now constructor. }
    rewrite getCodePreview_cases by lia. rewrite Hsplit.
    rewrite List.length_app, HF. cbn [List.length].
    destruct (Z.ltb_spec n (Z.of_nat (Z.to_nat n + 1))); [|lia].
    rewrite <- HF, firstn_app, firstn_all, Nat.sub_diag. cbn [firstn].
    rewrite app_nil_r. now rewrite join_snoc by assumption.
  - rewrite getCodePreview_cases by lia.
    destruct (Z.ltb_spec n (Z.of_nat (List.length (JS.split JS.LF code))));
      [lia|reflexivity].
Qed.

Lemma getCodePreview_idempotent_witness :
  0 <= 1 /\
  getCodePreview (getCodePreview ("a" ++ NL ++ "b") (Some 1)) (Some 1)
  = "a" ++ NL ++ "...".
Proof.
  assert (H : 0 <= 1) by lia.
  split; [exact H|].
  now rewrite (getCodePreview_idempotent ("a" ++ NL ++ "b") 1 H).
Defined.
